(** * openpifpaf: decoder factory and dental plugin constants

    A shallow embedding of [openpifpaf/decoder/factory.py] and of
    [openpifpaf/plugins/dental/constants.py].

    Python values are modelled as the code has them: floats are IEEE
    binary64 numbers (Rocq's primitive floats), ints are [Z], lists are
    lists, the dict [HFLIP] is a [gmap], [None]-able attributes are
    options.  Code that can raise runs in a small state-and-exception
    monad in which, as in Python, the mutations made before an exception
    is raised stay in the state. *)

From Stdlib Require Import ZArith Lia.
From Corelib Require Import PrimFloat SpecFloat FloatOps FloatAxioms.
From stdpp Require Import base tactics option list strings gmap.

Local Open Scope Z_scope.

(* Decimal literals such as 0.1 denote the nearest binary64 value, as in Python. *)
Set Warnings "-inexact-float".

(** ** Python runtime: exceptions, sequences, the state-and-exception monad *)

Module Py.

(** The exceptions raised by the embedded code.  [Exception_] carries the
    tuple that [factory_decode] formats into its message. *)
Inductive Exn : Type :=
| AssertionError (msg : string)
| IndexError
| NameError (name : string)
| TypeError
| Exception_ (msg : string) (head_names : list string).

(** [len(l)] *)
Definition len {A} (l : list A) : Z := Z.of_nat (length l).

(** [l[i]]: a negative index counts from the end, anything outside
    [-len(l) <= i < len(l)] raises [IndexError]. *)
Definition getitem {A} (l : list A) (i : Z) : Exn + A :=
  let j := if i <? 0 then i + len l else i in
  if j <? 0 then inl IndexError
  else match l !! Z.to_nat j with
       | Some x => inr x
       | None => inl IndexError
       end.

(** [range(n)] *)
Definition range (n : Z) : list Z := Z.of_nat <$> seq 0 (Z.to_nat n).

(** [l * k] for a list [l] and an int [k] (empty when [k <= 0]). *)
Definition list_mul {A} (l : list A) (k : Z) : list A :=
  mjoin (replicate (Z.to_nat k) l).

(** [divmod(a, b)] on ints: floor division and the matching remainder. *)
Definition divmod (a b : Z) : Z * Z := (a / b, a mod b).

(** A dict display [{k1: v1, k2: v2, ...}]: entries are stored left to
    right, a later entry with the same key replaces an earlier one. *)
Definition dict_display (kvs : list (string * string)) : gmap string string :=
  foldl (fun d kv => <[kv.1 := kv.2]> d) ∅ kvs.

(** Computations over a mutable state [St] that may raise. *)
Definition M (St A : Type) : Type := St -> St * (Exn + A).

Definition ret {St A} (a : A) : M St A := fun s => (s, inr a).

Definition bind {St A B} (m : M St A) (k : A -> M St B) : M St B :=
  fun s => match m s with
           | (s', inr a) => k a s'
           | (s', inl e) => (s', inl e)
           end.

Definition raise {St A} (e : Exn) : M St A := fun s => (s, inl e).

Definition get {St} : M St St := fun s => (s, inr s).

Definition modify {St} (f : St -> St) : M St unit := fun s => (f s, inr tt).

(** Lift the result of a pure operation that may raise. *)
Definition lift {St A} (r : Exn + A) : M St A := fun s => (s, r).

(** [assert c, msg] *)
Definition assert_ {St} (c : bool) (msg : string) : M St unit :=
  if c then ret tt else raise (AssertionError msg).

(** [[f(x) for x in l]], elements evaluated left to right. *)
Fixpoint comprehension {St A B} (f : A -> M St B) (l : list A) : M St (list B) :=
  match l with
  | [] => ret []
  | x :: l' => bind (f x) (fun y => bind (comprehension f l') (fun ys => ret (y :: ys)))
  end.

(** [for x in l: body(x)] *)
Fixpoint for_each {St A} (body : A -> M St unit) (l : list A) : M St unit :=
  match l with
  | [] => ret tt
  | x :: l' => bind (body x) (fun _ => for_each body l')
  end.

(** [wp m s Q E]: run from state [s], [m] either returns a value and a
    state satisfying [Q], or raises an exception satisfying [E] in the
    state it leaves behind. *)
Definition wp {St A} (m : M St A) (s : St)
    (Q : St -> A -> Prop) (E : St -> Exn -> Prop) : Prop :=
  match m s with
  | (s', inr a) => Q s' a
  | (s', inl e) => E s' e
  end.

End Py.

Import Py.

Declare Scope py_scope.
Delimit Scope py_scope with py.
Notation "x <- m ;; k" := (Py.bind m (fun x => k))
  (at level 100, m at next level, right associativity) : py_scope.
Notation "m ;;; k" := (Py.bind m (fun _ => k))
  (at level 100, right associativity) : py_scope.

(** ** [openpifpaf/plugins/dental/constants.py] *)

Module Dental.

Definition KEYPOINTS : list string :=
  [ "cej_left"; "cej_right"; "aeac_left"; "aeac_right"; "apex_left"; "apex_right" ]%string.

Definition SKELETON : list (Z * Z) := [ (1, 3); (3, 5); (2, 4); (4, 6) ].

Definition SIGMAS : list float := list_mul [0.05%float] (len KEYPOINTS).

(** Lines 21-23 for a keypoint list of length [n]. *)
Definition score_weights (n : Z) : list float :=
  let '(split, error) := divmod n 4 in
  list_mul [10.0%float] split ++ list_mul [3.0%float] split ++
  list_mul [1.0%float] split ++ list_mul [0.1%float] split ++
  list_mul [0.1%float] error.

Definition SCORE_WEIGHTS : list float := score_weights (len KEYPOINTS).

(** Line 24, the assertion run when the module is imported. *)
Definition score_weights_assertion (n : Z) : M unit unit :=
  assert_ (len (score_weights n) =? n) "".

Definition HFLIP : gmap string string :=
  dict_display
    [ ("cej_left", "cej_right"); ("cej_right", "cej_left");
      ("aeac_left", "aeac_right"); ("aeac_right", "aeac_left");
      ("apex_left", "apex_right"); ("apex_right", "apex_left") ]%string.

Definition CATEGORIES : list string := [ "tooth"%string ].

(** [print(a, '-', b)] writes the three values separated by blanks. *)
Definition print3 (a b c : string) : M (list string) unit :=
  modify (fun out => out ++ [a +:+ " " +:+ b +:+ " " +:+ c]%string).

Definition print1 (a : string) : M (list string) unit :=
  modify (fun out => out ++ [a]).

(** [print_associations], with the lines written to stdout as state.
    It is parametric in the two tables so that the bounds it relies on
    can be stated; the module's function is the instance below. *)
Definition print_associations_of (kps : list string) (skel : list (Z * Z))
  : M (list string) unit :=
  (print1 (String (Ascii.ascii_of_nat 10)
             "Associations of the tooth skeleton with 24 keypoints") ;;;
   for_each (fun '(j1, j2) =>
               k1 <- lift (getitem kps (j1 - 1)) ;;
               k2 <- lift (getitem kps (j2 - 1)) ;;
               print3 k1 "-" k2) skel)%py.

Definition print_associations : M (list string) unit :=
  print_associations_of KEYPOINTS SKELETON.

End Dental.

(** ** [openpifpaf/decoder/factory.py] *)

Module Visualizer.

(** The debug visualizers the factory instantiates, with the arguments
    it passes to their constructors. *)
Inductive t : Type :=
| Seeds
| CifHr (keypoints : list string)
| Occupancy (keypoints : list string)
| Cif (head_name : string) (stride : Z)
      (keypoints : list string) (skeleton : list (Z * Z))
| Caf (head_name : string) (stride : Z)
      (keypoints : list string) (skeleton : list (Z * Z)).

End Visualizer.

(** The attributes of a [FieldConfig] object that [factory_decode] reads
    or assigns. *)
Record FieldConfig : Type := mkFieldConfig {
  cif_indices : list Z;
  caf_indices : list Z;
  cif_strides : list Z;
  caf_strides : list Z;
  cif_min_scales : list float;
  caf_min_distances : list float;
  caf_max_distances : list (option float);
  confidence_scales : option (list float);
  cif_visualizers : option (list Visualizer.t);
  caf_visualizers : option (list Visualizer.t)
}.

Definition set_cif_indices (v : list Z) (fc : FieldConfig) : FieldConfig :=
  mkFieldConfig v (caf_indices fc) (cif_strides fc) (caf_strides fc)
    (cif_min_scales fc) (caf_min_distances fc) (caf_max_distances fc)
    (confidence_scales fc) (cif_visualizers fc) (caf_visualizers fc).
Definition set_caf_indices (v : list Z) (fc : FieldConfig) : FieldConfig :=
  mkFieldConfig (cif_indices fc) v (cif_strides fc) (caf_strides fc)
    (cif_min_scales fc) (caf_min_distances fc) (caf_max_distances fc)
    (confidence_scales fc) (cif_visualizers fc) (caf_visualizers fc).
Definition set_cif_strides (v : list Z) (fc : FieldConfig) : FieldConfig :=
  mkFieldConfig (cif_indices fc) (caf_indices fc) v (caf_strides fc)
    (cif_min_scales fc) (caf_min_distances fc) (caf_max_distances fc)
    (confidence_scales fc) (cif_visualizers fc) (caf_visualizers fc).
Definition set_caf_strides (v : list Z) (fc : FieldConfig) : FieldConfig :=
  mkFieldConfig (cif_indices fc) (caf_indices fc) (cif_strides fc) v
    (cif_min_scales fc) (caf_min_distances fc) (caf_max_distances fc)
    (confidence_scales fc) (cif_visualizers fc) (caf_visualizers fc).
Definition set_cif_min_scales (v : list float) (fc : FieldConfig) : FieldConfig :=
  mkFieldConfig (cif_indices fc) (caf_indices fc) (cif_strides fc) (caf_strides fc)
    v (caf_min_distances fc) (caf_max_distances fc)
    (confidence_scales fc) (cif_visualizers fc) (caf_visualizers fc).
Definition set_caf_min_distances (v : list float) (fc : FieldConfig) : FieldConfig :=
  mkFieldConfig (cif_indices fc) (caf_indices fc) (cif_strides fc) (caf_strides fc)
    (cif_min_scales fc) v (caf_max_distances fc)
    (confidence_scales fc) (cif_visualizers fc) (caf_visualizers fc).
Definition set_caf_max_distances (v : list (option float)) (fc : FieldConfig) : FieldConfig :=
  mkFieldConfig (cif_indices fc) (caf_indices fc) (cif_strides fc) (caf_strides fc)
    (cif_min_scales fc) (caf_min_distances fc) v
    (confidence_scales fc) (cif_visualizers fc) (caf_visualizers fc).
Definition set_confidence_scales (v : option (list float)) (fc : FieldConfig) : FieldConfig :=
  mkFieldConfig (cif_indices fc) (caf_indices fc) (cif_strides fc) (caf_strides fc)
    (cif_min_scales fc) (caf_min_distances fc) (caf_max_distances fc)
    v (cif_visualizers fc) (caf_visualizers fc).
Definition set_cif_visualizers (v : option (list Visualizer.t)) (fc : FieldConfig) : FieldConfig :=
  mkFieldConfig (cif_indices fc) (caf_indices fc) (cif_strides fc) (caf_strides fc)
    (cif_min_scales fc) (caf_min_distances fc) (caf_max_distances fc)
    (confidence_scales fc) v (caf_visualizers fc).
Definition set_caf_visualizers (v : option (list Visualizer.t)) (fc : FieldConfig) : FieldConfig :=
  mkFieldConfig (cif_indices fc) (caf_indices fc) (cif_strides fc) (caf_strides fc)
    (cif_min_scales fc) (caf_min_distances fc) (caf_max_distances fc)
    (confidence_scales fc) (cif_visualizers fc) v.

(** The argparse namespace: the attributes [configure] and
    [factory_from_args] read.  [batch_size] is [None] when the attribute
    is absent ([getattr(args, 'batch_size', 1)]). *)
Record Args : Type := mkArgs {
  cif_th : float;
  seed_threshold : float;
  caf_th : float;
  keypoint_threshold : option float;
  instance_threshold : float;
  force_complete_pose : bool;
  greedy : bool;
  connection_method : string;
  decoder_workers : option Z;
  batch_size : option Z;
  debug : bool;
  dense_coupling : float;
  dense_connections : bool;
  caf_seeds : bool;
  multi_scale : bool;
  multi_scale_hflip : bool;
  profile_decoder : option bool
}.

Definition set_keypoint_threshold (v : option float) (a : Args) : Args :=
  mkArgs (cif_th a) (seed_threshold a) (caf_th a) v (instance_threshold a)
    (force_complete_pose a) (greedy a) (connection_method a) (decoder_workers a)
    (batch_size a) (debug a) (dense_coupling a) (dense_connections a) (caf_seeds a)
    (multi_scale a) (multi_scale_hflip a) (profile_decoder a).
Definition set_decoder_workers (v : option Z) (a : Args) : Args :=
  mkArgs (cif_th a) (seed_threshold a) (caf_th a) (keypoint_threshold a)
    (instance_threshold a) (force_complete_pose a) (greedy a) (connection_method a) v
    (batch_size a) (debug a) (dense_coupling a) (dense_connections a) (caf_seeds a)
    (multi_scale a) (multi_scale_hflip a) (profile_decoder a).

(** The class attributes [configure] assigns (process-wide state). *)
Record ClassAttrs : Type := mkClassAttrs {
  CifHr_v_threshold : float;
  CifSeeds_threshold : float;
  CafScored_default_score_th : float;
  CifSeeds_debug_visualizer : option Visualizer.t;
  CifHr_debug_visualizer : option Visualizer.t;
  Processor_debug_visualizer : option Visualizer.t;
  CifCaf_debug_visualizer : option Visualizer.t;
  CifCaf_force_complete : bool;
  CifCaf_keypoint_threshold : option float;
  CifCaf_greedy : bool;
  CifCaf_connection_method : string
}.

Definition set_CifHr_v_threshold (v : float) (c : ClassAttrs) : ClassAttrs :=
  mkClassAttrs v (CifSeeds_threshold c) (CafScored_default_score_th c)
    (CifSeeds_debug_visualizer c) (CifHr_debug_visualizer c)
    (Processor_debug_visualizer c) (CifCaf_debug_visualizer c)
    (CifCaf_force_complete c) (CifCaf_keypoint_threshold c) (CifCaf_greedy c)
    (CifCaf_connection_method c).
Definition set_CifSeeds_threshold (v : float) (c : ClassAttrs) : ClassAttrs :=
  mkClassAttrs (CifHr_v_threshold c) v (CafScored_default_score_th c)
    (CifSeeds_debug_visualizer c) (CifHr_debug_visualizer c)
    (Processor_debug_visualizer c) (CifCaf_debug_visualizer c)
    (CifCaf_force_complete c) (CifCaf_keypoint_threshold c) (CifCaf_greedy c)
    (CifCaf_connection_method c).
Definition set_CafScored_default_score_th (v : float) (c : ClassAttrs) : ClassAttrs :=
  mkClassAttrs (CifHr_v_threshold c) (CifSeeds_threshold c) v
    (CifSeeds_debug_visualizer c) (CifHr_debug_visualizer c)
    (Processor_debug_visualizer c) (CifCaf_debug_visualizer c)
    (CifCaf_force_complete c) (CifCaf_keypoint_threshold c) (CifCaf_greedy c)
    (CifCaf_connection_method c).
Definition set_CifSeeds_debug_visualizer (v : option Visualizer.t) (c : ClassAttrs) : ClassAttrs :=
  mkClassAttrs (CifHr_v_threshold c) (CifSeeds_threshold c) (CafScored_default_score_th c)
    v (CifHr_debug_visualizer c)
    (Processor_debug_visualizer c) (CifCaf_debug_visualizer c)
    (CifCaf_force_complete c) (CifCaf_keypoint_threshold c) (CifCaf_greedy c)
    (CifCaf_connection_method c).
Definition set_CifHr_debug_visualizer (v : option Visualizer.t) (c : ClassAttrs) : ClassAttrs :=
  mkClassAttrs (CifHr_v_threshold c) (CifSeeds_threshold c) (CafScored_default_score_th c)
    (CifSeeds_debug_visualizer c) v
    (Processor_debug_visualizer c) (CifCaf_debug_visualizer c)
    (CifCaf_force_complete c) (CifCaf_keypoint_threshold c) (CifCaf_greedy c)
    (CifCaf_connection_method c).
Definition set_Processor_debug_visualizer (v : option Visualizer.t) (c : ClassAttrs) : ClassAttrs :=
  mkClassAttrs (CifHr_v_threshold c) (CifSeeds_threshold c) (CafScored_default_score_th c)
    (CifSeeds_debug_visualizer c) (CifHr_debug_visualizer c)
    v (CifCaf_debug_visualizer c)
    (CifCaf_force_complete c) (CifCaf_keypoint_threshold c) (CifCaf_greedy c)
    (CifCaf_connection_method c).
Definition set_CifCaf_debug_visualizer (v : option Visualizer.t) (c : ClassAttrs) : ClassAttrs :=
  mkClassAttrs (CifHr_v_threshold c) (CifSeeds_threshold c) (CafScored_default_score_th c)
    (CifSeeds_debug_visualizer c) (CifHr_debug_visualizer c)
    (Processor_debug_visualizer c) v
    (CifCaf_force_complete c) (CifCaf_keypoint_threshold c) (CifCaf_greedy c)
    (CifCaf_connection_method c).
Definition set_CifCaf_force_complete (v : bool) (c : ClassAttrs) : ClassAttrs :=
  mkClassAttrs (CifHr_v_threshold c) (CifSeeds_threshold c) (CafScored_default_score_th c)
    (CifSeeds_debug_visualizer c) (CifHr_debug_visualizer c)
    (Processor_debug_visualizer c) (CifCaf_debug_visualizer c)
    v (CifCaf_keypoint_threshold c) (CifCaf_greedy c)
    (CifCaf_connection_method c).
Definition set_CifCaf_keypoint_threshold (v : option float) (c : ClassAttrs) : ClassAttrs :=
  mkClassAttrs (CifHr_v_threshold c) (CifSeeds_threshold c) (CafScored_default_score_th c)
    (CifSeeds_debug_visualizer c) (CifHr_debug_visualizer c)
    (Processor_debug_visualizer c) (CifCaf_debug_visualizer c)
    (CifCaf_force_complete c) v (CifCaf_greedy c)
    (CifCaf_connection_method c).
Definition set_CifCaf_greedy (v : bool) (c : ClassAttrs) : ClassAttrs :=
  mkClassAttrs (CifHr_v_threshold c) (CifSeeds_threshold c) (CafScored_default_score_th c)
    (CifSeeds_debug_visualizer c) (CifHr_debug_visualizer c)
    (Processor_debug_visualizer c) (CifCaf_debug_visualizer c)
    (CifCaf_force_complete c) (CifCaf_keypoint_threshold c) v
    (CifCaf_connection_method c).
Definition set_CifCaf_connection_method (v : string) (c : ClassAttrs) : ClassAttrs :=
  mkClassAttrs (CifHr_v_threshold c) (CifSeeds_threshold c) (CafScored_default_score_th c)
    (CifSeeds_debug_visualizer c) (CifHr_debug_visualizer c)
    (Processor_debug_visualizer c) (CifCaf_debug_visualizer c)
    (CifCaf_force_complete c) (CifCaf_keypoint_threshold c) (CifCaf_greedy c)
    v.

(** What [configure] mutates: the namespace it is given and the class
    attributes. *)
Record World : Type := mkWorld {
  args : Args;
  cls : ClassAttrs
}.

Definition get_args : M World Args := fun w => (w, inr (args w)).
Definition args_set (f : Args -> Args) : M World unit :=
  modify (fun w => mkWorld (f (args w)) (cls w)).
Definition cls_set (f : ClassAttrs -> ClassAttrs) : M World unit :=
  modify (fun w => mkWorld (args w) (f (cls w))).

(** The network as the factory sees it. *)
Record Model : Type := mkModel {
  head_names : list string;
  head_strides : list Z
}.

(** The names bound in the module namespace of [factory.py]: its imports
    (lines 1-10), [LOG] and its four functions. *)
Definition module_globals : list string :=
  [ "logging"; "COCO_KEYPOINTS"; "COCO_PERSON_SKELETON";
    "DENSER_COCO_PERSON_CONNECTIONS"; "generator"; "FieldConfig"; "CafScored";
    "CifHr"; "CifSeeds"; "Processor"; "visualizer"; "LOG";
    "cli"; "configure"; "factory_from_args"; "factory_decode" ]%string.

(** Loading a global name that is neither bound in the module nor a
    builtin raises [NameError]. *)
Definition load_global {St} (name : string) : M St unit :=
  if bool_decide (name ∈ module_globals) then ret tt else raise (NameError name).


(** [a == x] for an attribute [a] that may be [None]. *)
Definition attr_eq (a : option float) (x : float) : bool :=
  match a with
  | Some v => (v =? x)%float
  | None => false
  end.

(** [x >= a] for an attribute [a] that may be [None]: comparing a float
    with [None] raises [TypeError]. *)
Definition ge_attr {St} (x : float) (a : option float) : M St bool :=
  match a with
  | Some v => ret (v <=? x)%float
  | None => raise TypeError
  end.

(** [getattr(args, 'batch_size', 1)] *)
Definition getattr_batch_size (a : Args) : Z := default 1 (batch_size a).

(** A decoder object, with the arguments its constructor received. *)
Inductive Decoder (PyObject : Type) : Type :=
| CifDet (stride : Z) (head_index : Z) (kwargs : list (string * PyObject))
| CifCaf (field_config : FieldConfig) (keypoints : list string)
         (skeleton out_skeleton : list (Z * Z)) (kwargs : list (string * PyObject)).
Arguments CifDet {PyObject} _ _ _.
Arguments CifCaf {PyObject} _ _ _ _ _.

Record Processor (PyObject : Type) : Type := mkProcessor {
  proc_model : Model;
  proc_decode : Decoder PyObject;
  proc_instance_threshold : float;
  proc_keypoint_threshold : option float;
  proc_profile : option bool;
  proc_worker_pool : option Z;
  proc_device : option string
}.
Arguments mkProcessor {PyObject} _ _ _ _ _ _ _.
Arguments proc_decode {PyObject} _.
Arguments proc_keypoint_threshold {PyObject} _.
Arguments proc_worker_pool {PyObject} _.

Section Factory.

(** The constants imported from [..data] (line 3); their values are not
    part of this module. *)
Variable COCO_KEYPOINTS : list string.
Variable COCO_PERSON_SKELETON : list (Z * Z).
Variable DENSER_COCO_PERSON_CONNECTIONS : list (Z * Z).

(** The object [FieldConfig()] returns; the class and its defaults are
    declared in [field_config.py]. *)
Variable FieldConfig_new : FieldConfig.

(** The values passed on through [**kwargs]. *)
Variable PyObject : Type.

Definition configure : M World unit :=
  (a <- get_args ;;
   (* configure CifHr, CifSeeds, CafScored *)
   cls_set (set_CifHr_v_threshold (cif_th a)) ;;;
   cls_set (set_CifSeeds_threshold (seed_threshold a)) ;;;
   cls_set (set_CafScored_default_score_th (caf_th a)) ;;;
   (* configure debug visualizer *)
   cls_set (set_CifSeeds_debug_visualizer (Some Visualizer.Seeds)) ;;;
   cls_set (set_CifHr_debug_visualizer (Some (Visualizer.CifHr COCO_KEYPOINTS))) ;;;
   cls_set (set_Processor_debug_visualizer (Some (Visualizer.Occupancy COCO_KEYPOINTS))) ;;;
   cls_set (set_CifCaf_debug_visualizer (Some (Visualizer.Occupancy COCO_KEYPOINTS))) ;;;
   (* default value for keypoint filter *)
   (if keypoint_threshold a is None
    then args_set (set_keypoint_threshold
                     (Some (if negb (force_complete_pose a) then 0.001%float else 0.0%float)))
    else ret tt) ;;;
   (* check consistency *)
   a <- get_args ;;
   (if force_complete_pose a
    then assert_ (attr_eq (keypoint_threshold a) 0.0%float) ""
    else ret tt) ;;;
   ok <- ge_attr (seed_threshold a) (keypoint_threshold a) ;;
   assert_ ok "" ;;;
   (* configure decoder generator *)
   cls_set (set_CifCaf_force_complete (force_complete_pose a)) ;;;
   cls_set (set_CifCaf_keypoint_threshold (keypoint_threshold a)) ;;;
   cls_set (set_CifCaf_greedy (greedy a)) ;;;
   cls_set (set_CifCaf_connection_method (connection_method a)) ;;;
   (* decoder workers *)
   (if bool_decide (decoder_workers a = None)
       && (1 <? getattr_batch_size a)
       && negb (debug a)
    then args_set (set_decoder_workers (batch_size a))
    else ret tt))%py.

(** Lines 137-160: the index, stride and scale lists of [field_config]. *)
Definition configure_scales (model : Model)
    (dense_connections multi_scale multi_scale_hflip : bool) : M FieldConfig unit :=
  ((if multi_scale then
      (if negb dense_connections then
         modify (set_cif_indices ((fun v => v * 3) <$> range 5)) ;;;
         modify (set_caf_indices ((fun v => v * 3 + 1) <$> range 5))
       else
         modify (set_cif_indices ((fun v => v * 2) <$> range 5)) ;;;
         modify (set_caf_indices ((fun v => v * 2 + 1) <$> range 5))) ;;;
      fc <- get ;;
      s <- comprehension (fun i => lift (getitem (head_strides model) i)) (cif_indices fc) ;;
      modify (set_cif_strides s) ;;;
      fc <- get ;;
      s <- comprehension (fun i => lift (getitem (head_strides model) i)) (caf_indices fc) ;;
      modify (set_caf_strides s) ;;;
      modify (set_cif_min_scales
                [0.0%float; 12.0%float; 16.0%float; 24.0%float; 40.0%float]) ;;;
      fc <- get ;;
      modify (set_caf_min_distances ((fun v => (v * 3.0)%float) <$> cif_min_scales fc)) ;;;
      modify (set_caf_max_distances
                [Some 160.0%float; Some 240.0%float; Some 320.0%float;
                 Some 480.0%float; None])
    else ret tt) ;;;
   (if multi_scale && multi_scale_hflip then
      (if negb dense_connections then
         modify (set_cif_indices ((fun v => v * 3) <$> range 10)) ;;;
         modify (set_caf_indices ((fun v => v * 3 + 1) <$> range 10))
       else
         modify (set_cif_indices ((fun v => v * 2) <$> range 10)) ;;;
         modify (set_caf_indices ((fun v => v * 2 + 1) <$> range 10))) ;;;
      fc <- get ;;
      s <- comprehension (fun i => lift (getitem (head_strides model) i)) (cif_indices fc) ;;
      modify (set_cif_strides s) ;;;
      fc <- get ;;
      s <- comprehension (fun i => lift (getitem (head_strides model) i)) (caf_indices fc) ;;
      modify (set_caf_strides s) ;;;
      modify (fun fc => set_cif_min_scales (list_mul (cif_min_scales fc) 2) fc) ;;;
      modify (fun fc => set_caf_min_distances (list_mul (caf_min_distances fc) 2) fc) ;;;
      modify (fun fc => set_caf_max_distances (list_mul (caf_max_distances fc) 2) fc)
    else ret tt))%py.

(** Lines 162-169: the skeleton the decoder works on. *)
Definition configure_skeleton (dense_coupling : float) (dense_connections : bool)
  : M FieldConfig (list (Z * Z)) :=
  (if dense_connections then
     modify (set_confidence_scales
               (Some (((fun _ => 1.0%float) <$> COCO_PERSON_SKELETON) ++
                      ((fun _ => dense_coupling) <$> DENSER_COCO_PERSON_CONNECTIONS)))) ;;;
     ret (COCO_PERSON_SKELETON ++ DENSER_COCO_PERSON_CONNECTIONS)
   else
     ret COCO_PERSON_SKELETON)%py.

(** Lines 171-182.  The first comprehension indexes
    [field_config.cif_strides] with the head index [i]; the second uses
    the zipped [stride]. *)
Definition configure_visualizers (model : Model) (skeleton : list (Z * Z))
  : M FieldConfig unit :=
  (fc <- get ;;
   vs <- comprehension
           (fun '(i, stride) =>
              load_global "visualizer" ;;;
              name <- lift (getitem (head_names model) i) ;;
              fc <- get ;;
              s <- lift (getitem (cif_strides fc) i) ;;
              ret (Visualizer.Cif name s COCO_KEYPOINTS skeleton))
           (zip (cif_indices fc) (cif_strides fc)) ;;
   modify (set_cif_visualizers (Some vs)) ;;;
   fc <- get ;;
   vs <- comprehension
           (fun '(i, stride) =>
              load_global "visualizer" ;;;
              name <- lift (getitem (head_names model) i) ;;
              ret (Visualizer.Caf name stride COCO_KEYPOINTS skeleton))
           (zip (caf_indices fc) (caf_strides fc)) ;;
   modify (set_caf_visualizers (Some vs)))%py.

(** Lines 135-190: the body of the [('cif', 'caf', 'caf25')] branch, run on
    the fresh [field_config] object. *)
Definition decode_cifcaf (model : Model) (dense_coupling : float)
    (dense_connections multi_scale multi_scale_hflip : bool)
    (kwargs : list (string * PyObject)) : M FieldConfig (Decoder PyObject) :=
  (configure_scales model dense_connections multi_scale multi_scale_hflip ;;;
   skeleton <- configure_skeleton dense_coupling dense_connections ;;
   configure_visualizers model skeleton ;;;
   load_global "generator" ;;;
   fc <- get ;;
   ret (CifCaf fc COCO_KEYPOINTS skeleton COCO_PERSON_SKELETON kwargs))%py.

Definition factory_decode (model : Model) (dense_coupling : float)
    (dense_connections caf_seeds multi_scale multi_scale_hflip : bool)
    (kwargs : list (string * PyObject)) : Exn + Decoder PyObject :=
  snd ((assert_ (negb caf_seeds) "not implemented" ;;;
        let names := head_names model in
        if bool_decide (names ∈ [ ["cifdet"] ]%string) then
          load_global "CifDet" ;;;
          stride <- lift (getitem (head_strides model) 0) ;;
          ret (CifDet stride 0 kwargs)
        else if bool_decide (names ∈ [ ["cif"; "caf"; "caf25"] ]%string) then
          load_global "FieldConfig" ;;;
          lift (snd (decode_cifcaf model dense_coupling dense_connections
                       multi_scale multi_scale_hflip kwargs FieldConfig_new))
        else
          raise (Exception_ "decoder unknown for head names: {}" names))%py tt).

Definition factory_from_args (model : Model) (device : option string)
  : M World (Processor PyObject) :=
  (configure ;;;
   a <- get_args ;;
   decode <- lift (factory_decode model (dense_coupling a) (dense_connections a)
                     (caf_seeds a) (multi_scale a) (multi_scale_hflip a) []) ;;
   ret (mkProcessor model decode (instance_threshold a) (keypoint_threshold a)
          (profile_decoder a) (decoder_workers a) device))%py.

End Factory.

(** A sufficient condition for lines 171-182 to index in range: every
    CIF head index is a position of both [model.head_names] and
    [field_config.cif_strides], every CAF head index a position of
    [model.head_names]. *)
Definition visualizable (model : Model) (fc : FieldConfig) : Prop :=
  Forall (fun i => 0 <= i < len (head_names model) /\ i < len (cif_strides fc))
         (cif_indices fc)
  /\ Forall (fun i => 0 <= i < len (head_names model)) (caf_indices fc).

(** ** Sample inputs

    Concrete values on which the statements below are run.  The data
    constants and the [FieldConfig] defaults stand for the ones the
    module imports. *)

Module Sample.

Definition keypoints : list string := [ "nose"; "left_eye"; "right_eye" ]%string.
Definition skeleton : list (Z * Z) := [ (1, 2); (1, 3) ].
Definition denser : list (Z * Z) := [ (2, 3) ].

(** A single-scale field configuration: head 0 is the CIF head, head 1
    the CAF head, both at stride 8. *)
Definition field_config : FieldConfig :=
  mkFieldConfig [0] [1] [8] [8] [0.0%float] [0.0%float] [None] None None None.

Definition model_cifcaf : Model := mkModel [ "cif"; "caf"; "caf25" ]%string [ 8; 8; 8 ].
Definition model_cifdet : Model := mkModel [ "cifdet" ]%string [ 8 ].
Definition model_pif : Model := mkModel [ "pif"; "paf" ]%string [ 8; 8 ].

(** A model that exposes thirty strides under the three head names. *)
Definition model_wide : Model := mkModel [ "cif"; "caf"; "caf25" ]%string (replicate 30 8).

(** The command-line defaults of [cli] with a batch size of 2. *)
Definition args_default : Args :=
  mkArgs 0.1%float 0.2%float 0.1%float None 0.0%float
    true false "blend" None (Some 2) false
    0.01%float false false false true None.

(** [--no-force-complete-pose --seed-threshold 0.0] *)
Definition args_low_seed : Args :=
  mkArgs 0.1%float 0.0%float 0.1%float None 0.0%float
    false false "blend" None (Some 2) false
    0.01%float false false false true None.

(** [--keypoint-threshold 0.5] with the default seed threshold 0.2 *)
Definition args_high_keypoint : Args :=
  mkArgs 0.1%float 0.2%float 0.1%float (Some 0.5%float) 0.0%float
    false false "blend" None (Some 2) false
    0.01%float false false false true None.

(** The defaults with [--debug] and a batch size of 2. *)
Definition args_debug : Args :=
  mkArgs 0.1%float 0.2%float 0.1%float None 0.0%float
    true false "blend" None (Some 2) true
    0.01%float false false false true None.

(** Class attributes before [configure] runs. *)
Definition class_attrs : ClassAttrs :=
  mkClassAttrs 0.1%float 0.5%float 0.1%float None None None None
    true (Some 0.0%float) false "blend".

End Sample.

(** ** [openpifpaf/visualizer/cli.py] *)

Module VisualizerCli.
Import Stdlib.Strings.Ascii.

(** The exceptions [configure] can raise. *)
Inductive Exn : Type :=
| ValueError
| AttributeError (attr : string).

(** [s.partition(sep)] for a one-character separator: the text before
    the first [sep], the separator, the text after it; the whole string
    and two empty strings when [sep] does not occur. *)
Fixpoint partition (s : string) (sep : Ascii.ascii) : string * string * string :=
  match s with
  | EmptyString => (EmptyString, EmptyString, EmptyString)
  | String c s' =>
      if Ascii.eqb c sep then (EmptyString, String sep EmptyString, s')
      else let '(h, m, t) := partition s' sep in (String c h, m, t)
  end.

(** The values [args.debug_indices] goes through: the strings argparse
    collected, the triples line 24 stores, the pairs line 25 stores. *)
Inductive DebugIndices : Type :=
| Strings (l : list string)
| Triples (l : list (string * string * string))
| Pairs (l : list (string * Z)).

Record Args : Type := mkArgs {
  debug_indices : DebugIndices;
  debug_cifhr : bool;
  debug_cif_c : bool;
  debug_cif_v : bool;
  debug_caf_c : bool;
  debug_caf_v : bool;
  debug : bool
}.

Definition set_debug_indices (v : DebugIndices) (a : Args) : Args :=
  mkArgs v (debug_cifhr a) (debug_cif_c a) (debug_cif_v a) (debug_caf_c a)
    (debug_caf_v a) (debug a).

(** The class attributes of the visualizers that [configure] assigns. *)
Record ClassAttrs : Type := mkClassAttrs {
  BaseVisualizer_all_indices : list (string * Z);
  Caf_show_background : bool;
  Caf_show_confidences : bool;
  Caf_show_regressions : bool;
  Cif_show_background : bool;
  Cif_show_confidences : bool;
  Cif_show_regressions : bool;
  CifHr_show : bool;
  Occupancy_show : bool;
  Seeds_show : bool
}.

Record World : Type := mkWorld {
  args : Args;
  cls : ClassAttrs
}.

(** Line 24, [[di.partition(':') for di in args.debug_indices]]: only
    strings have a [partition] method. *)
Definition partition_all (d : DebugIndices) : Exn + list (string * string * string) :=
  match d with
  | Strings l => inr ((fun di => partition di ":"%char) <$> l)
  | Triples [] | Pairs [] => inr []
  | Triples (_ :: _) | Pairs (_ :: _) => inl (AttributeError "partition")
  end.

Section Configure.

(** The builtin [int] on a string: [None] stands for the [ValueError] it
    raises on text that is not an integer literal. *)
Variable int_ : string -> option Z.

(** Line 25, [[(di[0], int(di[2])) for di in args.debug_indices]]. *)
Fixpoint parse_all (l : list (string * string * string)) : option (list (string * Z)) :=
  match l with
  | [] => Some []
  | (h, _, t) :: l' =>
      match int_ t with
      | None => None
      | Some n =>
          match parse_all l' with
          | None => None
          | Some r => Some ((h, n) :: r)
          end
      end
  end.

Definition configure (w : World) : World * (Exn + unit) :=
  match partition_all (debug_indices (args w)) with
  | inl e => (w, inl e)
  | inr triples =>
      let w1 := mkWorld (set_debug_indices (Triples triples) (args w)) (cls w) in
      match parse_all triples with
      | None => (w1, inl ValueError)
      | Some pairs =>
          let a := set_debug_indices (Pairs pairs) (args w) in
          let c := cls w in
          (* lines 26-32 *)
          let c1 :=
            mkClassAttrs pairs
              (Caf_show_background c) (debug_caf_c a) (debug_caf_v a)
              (Cif_show_background c) (debug_cif_c a) (debug_cif_v a)
              (debug_cifhr a) (Occupancy_show c) (Seeds_show c) in
          (* lines 34-42 *)
          let c2 :=
            if debug a
            then mkClassAttrs (BaseVisualizer_all_indices c1)
                   true true true true true true (CifHr_show c1) true true
            else c1 in
          (mkWorld a c2, inr tt)
      end
  end.

End Configure.

End VisualizerCli.

(** ** [openpifpaf/plugins/dental/dental_kp.py] *)

Module DentalKp.

(** [POSE] of [constants.py]: an array of rows [(x, y, z)]. *)
Definition Pose : Type := list (float * float * float).

Definition FRONT : float := (-6.0)%float.

(** [POSE] as the module body of [constants.py] creates it. *)
Definition POSE_initial : Pose :=
  [ ((-2.9)%float, 4.0%float, (FRONT * 0.5)%float);
    (2.9%float, 4.0%float, (FRONT * 0.5)%float);
    ((-2.0)%float, 2.0%float, FRONT);
    (2.0%float, 2.0%float, FRONT);
    ((-2.5)%float, 0.0%float, FRONT);
    (2.5%float, 0.0%float, FRONT) ].

(** What [get_constants] returns, in the order of its list. *)
Record Constants : Type := mkConstants {
  c_keypoints : list string;
  c_skeleton : list (Z * Z);
  c_hflip : gmap string string;
  c_sigmas : list float;
  c_pose : Pose;
  c_categories : list string;
  c_score_weights : list float
}.

(** [get_constants] of [constants.py]: [POSE[:, 2] = 2.0] overwrites the
    third column of the module's array, which is also the array
    returned. *)
Definition get_constants : M Pose Constants :=
  (modify (fun pose => (fun '(x, y, _) => (x, y, 2.0%float)) <$> pose) ;;;
   pose <- get ;;
   ret (mkConstants Dental.KEYPOINTS Dental.SKELETON Dental.HFLIP Dental.SIGMAS
          pose Dental.CATEGORIES Dental.SCORE_WEIGHTS))%py.

(** The argparse namespace as [DentalKp.configure] reads it. *)
Record Args : Type := mkArgs {
  debug : bool;
  pin_memory : bool;
  dental_train_annotations : string;
  dental_val_annotations : string;
  dental_train_image_dir : string;
  dental_val_image_dir : string;
  dental_square_edge : Z;
  dental_extended_scale : bool;
  dental_orientation_invariant : float;
  dental_blur : float;
  dental_augmentation : bool;
  dental_rescale_images : float;
  dental_upsample : Z;
  dental_min_kp_anns : Z;
  dental_bmin : Z;
  dental_eval_annotation_filter : bool;
  dental_eval_long_edge : Z;
  dental_eval_orientation_invariant : float;
  dental_eval_extended_scale : bool
}.

(** The class attributes of [DentalKp]; [batch_size] is inherited from
    [openpifpaf.datasets.DataModule]. *)
Record ClassAttrs : Type := mkClassAttrs {
  cls_debug : bool;
  cls_pin_memory : bool;
  train_annotations : string;
  val_annotations : string;
  eval_annotations : string;
  train_image_dir : string;
  val_image_dir : string;
  eval_image_dir : string;
  square_edge : Z;
  extended_scale : bool;
  orientation_invariant : float;
  blur : float;
  augmentation : bool;
  rescale_images : float;
  upsample_stride : Z;
  min_kp_anns : Z;
  b_min : Z;
  eval_annotation_filter : bool;
  eval_long_edge : Z;
  eval_orientation_invariant : float;
  eval_extended_scale : bool;
  hflip : option (gmap string string);
  weights : option (list float);
  dental_categories : option (list string);
  dental_keypoints : option (list string);
  dental_skeleton : option (list (Z * Z));
  dental_sigmas : option (list float);
  dental_pose : option Pose;
  dental_score_weights : option (list float);
  batch_size : Z
}.

(** The class body, lines 32-66, with the inherited batch size. *)
Definition class_body (batch_size : Z) : ClassAttrs :=
  mkClassAttrs true false
    "data-dental/annotations/dental_keypoints_66_train.json"
    "data-dental/annotations/dental_keypoints_66_val.json"
    "data-dental/annotations/dental_keypoints_66_val.json"
    "data-dental/images/train/" "data-dental/images/val/" "data-dental/images/val/"
    513 false 0.0%float 0.0%float true 1.0%float 1 1 1
    true 0 0.0%float false
    None None None None None None None None batch_size.

(** The module's [POSE] array and the class attributes. *)
Record World : Type := mkWorld {
  POSE : Pose;
  cls : ClassAttrs
}.

(** [DentalKp.configure], lines 160-187. *)
Definition configure (a : Args) : M World unit :=
  (w <- get ;;
   let '(pose', r) := get_constants (POSE w) in
   match r with
   | inl e => raise e
   | inr k =>
       let c := cls w in
       modify (fun _ =>
         mkWorld pose'
           (mkClassAttrs (debug a) (pin_memory a)
              (dental_train_annotations a) (dental_val_annotations a)
              (dental_val_annotations a)
              (dental_train_image_dir a) (dental_val_image_dir a)
              (dental_val_image_dir a)
              (dental_square_edge a) (dental_extended_scale a)
              (dental_orientation_invariant a) (dental_blur a)
              (dental_augmentation a) (dental_rescale_images a)
              (dental_upsample a) (dental_min_kp_anns a) (dental_bmin a)
              (dental_eval_annotation_filter a) (dental_eval_long_edge a)
              (dental_eval_orientation_invariant a) (dental_eval_extended_scale a)
              (Some (c_hflip k)) (weights c) (Some (c_categories k))
              (Some (c_keypoints k)) (Some (c_skeleton k)) (Some (c_sigmas k))
              (Some (c_pose k)) (Some (c_score_weights k)) (batch_size c)))
   end)%py.

(** The head metas [__init__] builds, with the arguments given to their
    constructors and the [upsample_stride] assigned right after. *)
Inductive HeadMeta : Type :=
| Cif (name dataset : string) (keypoints : list string) (sigmas : list float)
      (pose : option Pose) (draw_skeleton : list (Z * Z))
      (score_weights : option (list float)) (training_weights : option (list float))
      (upsample_stride : Z)
| Caf (name dataset : string) (keypoints : list string) (sigmas : list float)
      (pose : option Pose) (skeleton : list (Z * Z))
      (training_weights : option (list float)) (upsample_stride : Z).

(** [assert x is not None], giving the value to what follows. *)
Definition assert_not_none {St A} (x : option A) : M St A :=
  match x with
  | Some v => ret v
  | None => raise (AssertionError "")
  end.

(** The builtin [max(a, b)] on floats: [b] only when [b > a]. *)
Definition max_ (a b : float) : float := if (a <? b)%float then b else a.

Section Init.

(** [np.sum] of a float array, and the float a Python int converts to. *)
Variable np_sum : list float -> float.
Variable float_of_int : Z -> float.

(** Lines 75-83. *)
Definition caf_weights_of (ws : option (list float)) (skeleton : list (Z * Z))
  : M ClassAttrs (option (list float)) :=
  match ws with
  | Some ws =>
      (caf_weights <- comprehension
                        (fun '(bone1, bone2) =>
                           w1 <- lift (getitem ws (bone1 - 1)) ;;
                           w2 <- lift (getitem ws (bone2 - 1)) ;;
                           ret (max_ w1 w2)) skeleton ;;
       let total := np_sum caf_weights in
       let n := float_of_int (len caf_weights) in
       ret (Some ((fun w => (w / total * n)%float) <$> caf_weights)))%py
  | None => ret None
  end.

(** [DentalKp.__init__]: the [head_metas] of the new instance.  The
    call [super().__init__()] goes to [openpifpaf.datasets.DataModule]
    and touches none of the attributes read here. *)
Definition init : M ClassAttrs (list HeadMeta) :=
  (c <- get ;;
   keypoints <- assert_not_none (dental_keypoints c) ;;
   sigmas <- assert_not_none (dental_sigmas c) ;;
   skeleton <- assert_not_none (dental_skeleton c) ;;
   caf_weights <- caf_weights_of (weights c) skeleton ;;
   let cif := Cif "cif" "dental" keypoints sigmas (dental_pose c) skeleton
                (dental_score_weights c) (weights c) (upsample_stride c) in
   let caf := Caf "caf" "dental" keypoints sigmas (dental_pose c) skeleton
                caf_weights (upsample_stride c) in
   ret [cif; caf])%py.

End Init.

(** The transforms [common_eval_preprocess] instantiates. *)
#[local] Unset Elimination Schemes.
Inductive Transform : Type :=
| NormalizeAnnotations
| RescaleAbsolute (long_edge : Z)
| CenterPadTight (multiple : Z)
| CenterPad (target_size : Z)
| RotateBy90 (fixed_angle : Z)
| DeterministicEqualChoice (transforms : list (option Transform)) (salt : Z).
#[local] Set Elimination Schemes.

(** An entry of the list [common_eval_preprocess] returns: [None], a
    transform, or (for the extended scale) a list of transforms. *)
Inductive Entry : Type :=
| ENone
| ETransform (t : Transform)
| EList (l : list Transform).

(** Truth value of an int and of a float. *)
Definition truthy (z : Z) : bool := negb (z =? 0).
Definition truthy_float (x : float) : bool := negb (x =? 0.0)%float.

(** [DentalKp.common_eval_preprocess], lines 261-294. *)
Definition common_eval_preprocess : M ClassAttrs (list Entry) :=
  (c <- get ;;
   rescale_t <-
     (if eval_extended_scale c then
        assert_ (truthy (eval_long_edge c)) "" ;;;
        ret (EList [DeterministicEqualChoice
                      [Some (RescaleAbsolute (eval_long_edge c));
                       Some (RescaleAbsolute ((eval_long_edge c - 1) / 2 + 1))] 1])
      else if truthy (eval_long_edge c) then
        ret (ETransform (RescaleAbsolute (eval_long_edge c)))
      else ret ENone) ;;
   padding_t <-
     (if batch_size c =? 1 then ret (CenterPadTight 16)
      else
        assert_ (truthy (eval_long_edge c)) "" ;;;
        ret (CenterPad (eval_long_edge c))) ;;
   let orientation_t :=
     if truthy_float (eval_orientation_invariant c)
     then ETransform (DeterministicEqualChoice
                        [None; Some (RotateBy90 90); Some (RotateBy90 180);
                         Some (RotateBy90 270)] 3)
     else ENone in
   ret [ETransform NormalizeAnnotations; rescale_t; ETransform padding_t;
        orientation_t])%py.

End DentalKp.

(** ** More sample inputs *)

Module SampleMore.

(** A stand-in for the builtin [int] on unsigned decimal literals. *)
Fixpoint digits_value (s : string) (acc : Z) : option Z :=
  match s with
  | EmptyString => Some acc
  | String c s' =>
      let n := Z.of_nat (Ascii.nat_of_ascii c) in
      if (48 <=? n) && (n <=? 57) then digits_value s' (10 * acc + (n - 48))
      else None
  end.

Definition int_of_digits (s : string) : option Z :=
  match s with
  | EmptyString => None
  | _ => digits_value s 0
  end.

(** [--debug-indices cif:5 caf:12 --debug-cif-c] *)
Definition visualizer_args : VisualizerCli.Args :=
  VisualizerCli.mkArgs (VisualizerCli.Strings [ "cif:5"; "caf:12" ]%string)
    false true false false false false.

(** [--debug-indices cif:5 caf --debug] *)
Definition visualizer_args_no_colon : VisualizerCli.Args :=
  VisualizerCli.mkArgs (VisualizerCli.Strings [ "cif:5"; "caf" ]%string)
    false false false false false true.

(** [--debug] alone. *)
Definition visualizer_args_debug : VisualizerCli.Args :=
  VisualizerCli.mkArgs (VisualizerCli.Strings []) false false false false false true.

Definition visualizer_class_attrs : VisualizerCli.ClassAttrs :=
  VisualizerCli.mkClassAttrs [] false false false false false false false false false.

(** The decoder [factory_decode] returns on the single-scale sample. *)
Definition decoder_single : Decoder unit :=
  CifCaf
    (mkFieldConfig [0] [1] [8] [8] [0.0%float] [0.0%float] [None] None
       (Some [Visualizer.Cif "cif" 8 Sample.keypoints Sample.skeleton])
       (Some [Visualizer.Caf "caf" 8 Sample.keypoints Sample.skeleton]))
    Sample.keypoints Sample.skeleton Sample.skeleton [].

(** The command-line defaults of the dental data module. *)
Definition dental_args : DentalKp.Args :=
  DentalKp.mkArgs false false
    "data-dental/annotations/dental_keypoints_66_train.json"
    "data-dental/annotations/dental_keypoints_66_val.json"
    "data-dental/images/train/" "data-dental/images/val/"
    513 false 0.0%float 0.0%float true 1.0%float 1 1 1 true 0 0.0%float false.

(** Stand-ins for [np.sum] (left to right) and for int-to-float. *)
Definition sum_left (l : list float) : float :=
  foldl (fun acc x => (acc + x)%float) 0.0%float l.

Definition small_float (z : Z) : float :=
  Z.iter z (fun x => (x + 1.0)%float) 0.0%float.

(** The command-line defaults with [--caf-seeds]. *)
Definition args_caf_seeds : Args :=
  mkArgs 0.1%float 0.2%float 0.1%float None 0.0%float
    true false "blend" None (Some 2) false
    0.01%float false true false true None.

(** The class body of [DentalKp] with six training weights, after
    [configure] on the command-line defaults. *)
Definition dental_class_weighted : DentalKp.ClassAttrs :=
  DentalKp.mkClassAttrs false false
    "data-dental/annotations/dental_keypoints_66_train.json"
    "data-dental/annotations/dental_keypoints_66_val.json"
    "data-dental/annotations/dental_keypoints_66_val.json"
    "data-dental/images/train/" "data-dental/images/val/" "data-dental/images/val/"
    513 false 0.0%float 0.0%float true 1.0%float 1 1 1
    true 0 0.0%float false
    (Some Dental.HFLIP)
    (Some [3.0%float; 3.0%float; 2.0%float; 2.0%float; 1.0%float; 1.0%float])
    (Some Dental.CATEGORIES) (Some Dental.KEYPOINTS) (Some Dental.SKELETON)
    (Some Dental.SIGMAS) (Some DentalKp.POSE_initial) (Some Dental.SCORE_WEIGHTS) 1.

(** [--dental-eval-extended-scale --dental-eval-long-edge 513], batch
    size 4. *)
Definition dental_class_extended : DentalKp.ClassAttrs :=
  DentalKp.mkClassAttrs false false
    "data-dental/annotations/dental_keypoints_66_train.json"
    "data-dental/annotations/dental_keypoints_66_val.json"
    "data-dental/annotations/dental_keypoints_66_val.json"
    "data-dental/images/train/" "data-dental/images/val/" "data-dental/images/val/"
    513 false 0.0%float 0.0%float true 1.0%float 1 1 1
    true 513 0.0%float true
    None None None None None None None None 4.

End SampleMore.

(** * Properties *)

(** ** Python runtime *)

Lemma getitem_in_bounds {A} (l : list A) (i : Z) :
  0 <= i < len l -> exists x, getitem l i = inr x.
Proof.
  intros [Hlo Hhi]. unfold getitem, len in *.
  destruct (Z.ltb_spec i 0) as [Hneg|_]; [lia|].
  destruct (Z.ltb_spec i 0) as [Hneg|_]; [lia|].
  destruct (lookup_lt_is_Some_2 l (Z.to_nat i)) as [x Hx]; [lia|].
  exists x. now rewrite Hx.
Qed.

Lemma getitem_out_of_range {A} (l : list A) (i : Z) :
  len l <= i -> getitem l i = inl IndexError.
Proof.
  intros Hi. unfold getitem, len in *.
  destruct (Z.ltb_spec i 0) as [Hneg|_]; [lia|].
  destruct (Z.ltb_spec i 0) as [Hneg|_]; [lia|].
  rewrite lookup_ge_None_2; [reflexivity | lia].
Qed.

Lemma length_list_mul_singleton {A} (x : A) (k : Z) :
  length (list_mul [x] k) = Z.to_nat k.
Proof.
  unfold list_mul. induction (Z.to_nat k) as [|n IH]; simpl; [reflexivity|].
  now rewrite IH.
Qed.

Lemma for_each_no_raise {St A} (body : A -> M St unit) (l : list A) :
  Forall (fun x => forall s, exists s', body x s = (s', inr tt)) l ->
  forall s, exists s', for_each body l s = (s', inr tt).
Proof.
  induction 1 as [|x l Hx _ IH]; intros s; simpl.
  - now exists s.
  - unfold bind. destruct (Hx s) as [s1 ->]. apply IH.
Qed.

Lemma getitem_error {A} (l : list A) (i : Z) (e : Exn) :
  getitem l i = inl e -> e = IndexError.
Proof.
  unfold getitem. destruct (_ <? 0); [congruence|].
  destruct (l !! _); congruence.
Qed.

Lemma getitem_returns_lt {A} (l : list A) (i : Z) (x : A) :
  getitem l i = inr x -> i < len l.
Proof.
  unfold getitem, len. destruct (Z.ltb_spec i 0) as [Hneg|Hpos]; [lia|].
  destruct (Z.ltb_spec i 0) as [?|_]; [lia|].
  destruct (l !! Z.to_nat i) eqn:E; [|discriminate].
  intros _. apply lookup_lt_Some in E. lia.
Qed.

Lemma Forall2_left {A B} (P : A -> Prop) (l : list A) (k : list B) :
  Forall2 (fun x _ => P x) l k -> Forall P l.
Proof. induction 1; constructor; auto. Qed.

(** *** Rules for [wp] *)

Section WpRules.

Context {St : Type}.
Implicit Types (s : St) (E : St -> Exn -> Prop).

Lemma wp_ret {A} (a : A) s (Q : St -> A -> Prop) E :
  Q s a -> wp (ret a) s Q E.
Proof. exact id. Qed.

Lemma wp_raise {A} (e : Exn) s (Q : St -> A -> Prop) E :
  E s e -> wp (raise e) s Q E.
Proof. exact id. Qed.

Lemma wp_get s (Q : St -> St -> Prop) E :
  Q s s -> wp get s Q E.
Proof. exact id. Qed.

Lemma wp_modify (f : St -> St) s (Q : St -> unit -> Prop) E :
  Q (f s) tt -> wp (modify f) s Q E.
Proof. exact id. Qed.

Lemma wp_lift {A} (r : Exn + A) s (Q : St -> A -> Prop) E :
  match r with inr a => Q s a | inl e => E s e end -> wp (lift r) s Q E.
Proof. unfold wp, lift. now destruct r. Qed.

Lemma wp_assert (c : bool) (msg : string) s (Q : St -> unit -> Prop) E :
  (c = true -> Q s tt) -> (c = false -> E s (AssertionError msg)) ->
  wp (assert_ c msg) s Q E.
Proof. unfold wp, assert_. destruct c; cbn; auto. Qed.

Lemma wp_bind {A B} (m : M St A) (k : A -> M St B) s (Q : St -> B -> Prop) E :
  wp m s (fun s' a => wp (k a) s' Q E) E -> wp (bind m k) s Q E.
Proof. unfold wp, bind. now destruct (m s) as [s' [e|a]]. Qed.

Lemma wp_mono {A} (m : M St A) s (Q Q' : St -> A -> Prop) E E' :
  wp m s Q E ->
  (forall s' a, Q s' a -> Q' s' a) -> (forall s' e, E s' e -> E' s' e) ->
  wp m s Q' E'.
Proof. unfold wp. destruct (m s) as [s' [e|a]]; auto. Qed.

Lemma wp_returns {A} (m : M St A) s (Q : St -> A -> Prop) E s' a :
  wp m s Q E -> m s = (s', inr a) -> Q s' a.
Proof. unfold wp. intros H Hrun. now rewrite Hrun in H. Qed.

Lemma wp_raises {A} (m : M St A) s (Q : St -> A -> Prop) E s' e :
  wp m s Q E -> m s = (s', inl e) -> E s' e.
Proof. unfold wp. intros H Hrun. now rewrite Hrun in H. Qed.

(** A comprehension whose element computations maintain [I] returns
    values related elementwise to the list it ranges over. *)
Lemma wp_comprehension {A B} (f : A -> M St B) (l : list A)
    (I : St -> Prop) (R : A -> B -> Prop) E s :
  I s ->
  (forall x, x ∈ l -> forall s0, I s0 -> wp (f x) s0 (fun s' y => I s' /\ R x y) E) ->
  wp (comprehension f l) s (fun s' ys => I s' /\ Forall2 R l ys) E.
Proof.
  revert s. induction l as [|x l IH]; intros s Hs Hf; simpl.
  - apply wp_ret. auto.
  - apply wp_bind.
    eapply wp_mono; [apply (Hf x); [left | exact Hs] | | auto].
    intros s1 y [Hs1 Hxy]. apply wp_bind.
    eapply wp_mono; [apply (IH s1 Hs1) | | auto].
    + intros x' Hx'. apply Hf. now right.
    + intros s2 ys [Hs2 Hys]. apply wp_ret. auto.
Qed.

Lemma wp_load_global_bound (name : string) s (Q : St -> unit -> Prop) E :
  bool_decide (name ∈ module_globals) = true -> Q s tt ->
  wp (load_global name) s Q E.
Proof. unfold wp, load_global. now intros ->. Qed.

End WpRules.

(** Reading strides off a list: the state is untouched, one stride is
    returned per index, only [IndexError] can be raised. *)
Lemma wp_getitem_comprehension {St A} (hs : list A) (l : list Z) (s : St) :
  wp (comprehension (fun i => lift (getitem hs i)) l) s
     (fun s' ys => s' = s /\ length ys = length l)
     (fun s' e => e = IndexError).
Proof.
  eapply wp_mono;
    [apply (wp_comprehension _ l (eq s) (fun _ _ => True) (fun _ e => e = IndexError));
       [reflexivity|] | |].
  - intros i _ s0 <-. apply wp_lift.
    destruct (getitem hs i) as [e|x] eqn:Hi; [eapply getitem_error, Hi | auto].
  - intros s' ys [<- Hys]. split; [reflexivity|].
    symmetry. eapply Forall2_length, Hys.
  - auto.
Qed.

(** One step of a [wp] derivation through the straight-line constructs. *)
Ltac wp_step :=
  lazymatch goal with
  | |- wp (bind _ _) _ _ _ => apply wp_bind
  | |- wp (ret _) _ _ _ => apply wp_ret
  | |- wp get _ _ _ => apply wp_get
  | |- wp (modify _) _ _ _ => apply wp_modify
  | |- wp (load_global _) _ _ _ => apply wp_load_global_bound; [reflexivity|]
  end;
  cbv beta.

(** The same through a comprehension that reads strides off a list. *)
Ltac wp_strides :=
  lazymatch goal with
  | |- wp (bind (comprehension _ _) _) _ _ _ =>
      apply wp_bind;
      eapply wp_mono;
      [ apply wp_getitem_comprehension
      | cbv beta; intros ? ? [-> ?]
      | cbv beta; intros ? ? ->; try reflexivity ]
  end.

(** ** Dental plugin constants *)

Module DentalFacts.
Import Dental.

(** A skeleton whose edges are 1-based indices into the keypoint list is
    printed without an exception. *)
Lemma print_associations_of_no_raise (kps : list string) (skel : list (Z * Z)) :
  Forall (fun e => 1 <= e.1 <= len kps /\ 1 <= e.2 <= len kps) skel ->
  forall out, exists out', print_associations_of kps skel out = (out', inr tt).
Proof.
  intros Hb out. unfold print_associations_of, bind at 1, print1, modify.
  apply for_each_no_raise.
  eapply Forall_impl; [exact Hb|].
  intros [j1 j2] [H1 H2] s; simpl in *.
  destruct (getitem_in_bounds kps (j1 - 1)) as [k1 E1]; [lia|].
  destruct (getitem_in_bounds kps (j2 - 1)) as [k2 E2]; [lia|].
  unfold bind, lift. rewrite E1, E2. unfold print3, modify. eauto.
Qed.

(** C8: every edge of [SKELETON] is a pair of 1-based indices between 1
    and [len(KEYPOINTS)], so both [KEYPOINTS[j - 1]] accesses of
    [print_associations] succeed on every edge and the function finishes
    without raising, whatever was printed before. *)
Theorem skeleton_edges_in_bounds :
  Forall (fun e => 1 <= e.1 <= len KEYPOINTS /\ 1 <= e.2 <= len KEYPOINTS) SKELETON
  /\ Forall (fun e => (exists k, getitem KEYPOINTS (e.1 - 1) = inr k)
                      /\ (exists k, getitem KEYPOINTS (e.2 - 1) = inr k)) SKELETON
  /\ forall out, exists out', print_associations out = (out', inr tt).
Proof.
  assert (Hb : Forall (fun e => 1 <= e.1 <= len KEYPOINTS /\ 1 <= e.2 <= len KEYPOINTS)
                 SKELETON).
  { unfold SKELETON, KEYPOINTS, len; simpl.
    repeat constructor; simpl; lia. }
  split; [exact Hb|]. split.
  - eapply Forall_impl; [exact Hb|].
    intros [j1 j2] [H1 H2]; simpl in *.
    split; apply getitem_in_bounds; lia.
  - apply print_associations_of_no_raise, Hb.
Qed.

(** C9: for a keypoint list of any length [n], the list built from
    [divmod(n, 4)] has exactly [n] entries, so the assertion of line 24
    passes; in particular [SCORE_WEIGHTS] has the 6 entries of
    [KEYPOINTS]. *)
Theorem score_weights_length (kps : list string) :
  len (score_weights (len kps)) = len kps
  /\ score_weights_assertion (len kps) tt = (tt, inr tt)
  /\ len SCORE_WEIGHTS = len KEYPOINTS
  /\ len SCORE_WEIGHTS = 6.
Proof.
  assert (Hlen : forall n, 0 <= n -> len (score_weights n) = n).
  { intros n Hn. unfold score_weights, divmod, len.
    rewrite !length_app, !length_list_mul_singleton.
    pose proof (Z.div_mod n 4 ltac:(lia)) as Hdm.
    pose proof (Z.mod_pos_bound n 4 ltac:(lia)) as Hm.
    pose proof (Z.div_pos n 4 Hn ltac:(lia)) as Hd.
    rewrite !Nat2Z.inj_add, !Z2Nat.id by lia. lia. }
  assert (H0 : 0 <= len kps) by (unfold len; lia).
  split; [apply Hlen, H0|]. split.
  - unfold score_weights_assertion. rewrite (Hlen _ H0), Z.eqb_refl. reflexivity.
  - split; [apply Hlen; unfold len; lia | reflexivity].
Qed.

(** C10: [HFLIP] maps every keypoint name to a keypoint name, applying it
    twice gives the name back, and its keys are exactly the names in
    [KEYPOINTS]. *)
Theorem HFLIP_involution :
  (forall k : string, k ∈ KEYPOINTS ->
     exists v : string, HFLIP !! k = Some v /\ v ∈ KEYPOINTS /\ HFLIP !! v = Some k)
  /\ (forall k : string, is_Some (HFLIP !! k) <-> k ∈ KEYPOINTS).
Proof.
  split.
  - intros k Hk. unfold KEYPOINTS in Hk.
    repeat (apply elem_of_cons in Hk as [->|Hk]);
      [..| by apply elem_of_nil in Hk];
      eexists; (split; [vm_compute; reflexivity|]);
      (split; [unfold KEYPOINTS; set_solver | vm_compute; reflexivity]).
  - intros k. unfold HFLIP, dict_display, KEYPOINTS; simpl.
    rewrite !lookup_insert_is_Some, lookup_empty, !elem_of_cons, elem_of_nil.
    split.
    + intros H.
      repeat (destruct H as [<-|[_ H]]; [auto 10|]).
      by apply is_Some_None in H.
    + intros H.
      destruct (decide ("apex_right"%string = k)) as [|n1]; [by left|right; split; [done|]].
      destruct (decide ("apex_left"%string = k)) as [|n2]; [by left|right; split; [done|]].
      destruct (decide ("aeac_right"%string = k)) as [|n3]; [by left|right; split; [done|]].
      destruct (decide ("aeac_left"%string = k)) as [|n4]; [by left|right; split; [done|]].
      destruct (decide ("cej_right"%string = k)) as [|n5]; [by left|right; split; [done|]].
      destruct (decide ("cej_left"%string = k)) as [|n6]; [by left|].
      exfalso. repeat (destruct H as [->|H]; [congruence|]). exact H.
Qed.

End DentalFacts.

(** ** Float comparisons *)

Lemma SFcompare_Lt_swap (x y : spec_float) :
  SFcompare x y = Some Lt -> SFcompare y x = Some Gt.
Proof.
  destruct x as [sx|sx| |sx mx ex], y as [sy|sy| |sy my ey]; simpl;
    try discriminate; try (destruct sx; discriminate || reflexivity);
    try (destruct sy; discriminate || reflexivity);
    try (destruct sx, sy; discriminate || reflexivity).
  destruct sx, sy; try discriminate; try reflexivity;
    rewrite (Z.compare_antisym ex ey), !Pos.compare_cont_spec;
    rewrite (Pos.compare_antisym mx my);
    destruct (ex ?= ey); simpl; try discriminate; try reflexivity;
    destruct (mx ?= my)%positive; simpl; discriminate || reflexivity.
Qed.

(** [x < y] excludes [x >= y], also when an operand is NaN. *)
Lemma float_lt_not_ge (x y : float) :
  (x <? y)%float = true -> (y <=? x)%float = false.
Proof.
  rewrite ltb_spec, leb_spec. unfold SFltb, SFleb.
  destruct (SFcompare (Prim2SF x) (Prim2SF y)) as [[]|] eqn:E; try discriminate.
  intros _. now rewrite (SFcompare_Lt_swap _ _ E).
Qed.

(** ** [configure] *)

(** Unfold one run of [configure] on a namespace given field by field. *)
Ltac run_configure :=
  cbv [configure bind ret raise get modify lift assert_ get_args args_set cls_set
       attr_eq ge_attr getattr_batch_size default fst snd args cls];
  cbn [keypoint_threshold force_complete_pose seed_threshold decoder_workers
       batch_size debug set_keypoint_threshold set_decoder_workers negb].

(** Split on the outcome of a comparison the run is waiting for. *)
Ltac split_test :=
  match goal with
  | |- context [if PrimFloat.eqb ?x ?y then _ else _] =>
      destruct (PrimFloat.eqb x y) eqn:?
  | |- context [if PrimFloat.leb ?x ?y then _ else _] =>
      destruct (PrimFloat.leb x y) eqn:?
  end.

Section ConfigureFacts.

Context (COCO_KEYPOINTS : list string)
        (COCO_PERSON_SKELETON DENSER_COCO_PERSON_CONNECTIONS : list (Z * Z))
        (FieldConfig_new : FieldConfig) (PyObject : Type).

Abbreviation factory_from_args' :=
  (factory_from_args COCO_KEYPOINTS COCO_PERSON_SKELETON
     DENSER_COCO_PERSON_CONNECTIONS FieldConfig_new PyObject).

(** An exception raised by [configure] leaves [factory_from_args] without
    ever reaching [factory_decode] or building a [Processor]. *)
Lemma factory_from_args_configure_raises (model : Model) (device : option string)
    (w : World) (e : Exn) :
  snd (configure COCO_KEYPOINTS w) = inl e ->
  factory_from_args' model device w = (fst (configure COCO_KEYPOINTS w), inl e).
Proof.
  unfold factory_from_args. unfold bind at 1.
  destruct (configure COCO_KEYPOINTS w) as [w' [e'|[]]]; simpl; congruence.
Qed.

(** C1: with [kp] the keypoint threshold after the default of lines 79-80
    has been filled in, [configure] raises an [AssertionError] when
    [seed_threshold < kp], and when [force_complete_pose] is set and
    [kp == 0.0] is false; [factory_from_args] then raises that error
    before [factory_decode] and [Processor] are reached.  When
    [seed_threshold >= kp] holds, and [kp == 0.0] whenever
    [force_complete_pose] is set, [configure] returns normally. *)
Theorem configure_checks_invariants (a : Args) (c : ClassAttrs) :
  let kp := match keypoint_threshold a with
            | Some k => k
            | None => if force_complete_pose a then 0.0%float else 0.001%float
            end in
  let r := snd (configure COCO_KEYPOINTS (mkWorld a c)) in
  ((seed_threshold a <? kp)%float = true -> r = inl (AssertionError ""))
  /\ (force_complete_pose a = true /\ (kp =? 0.0)%float = false ->
      r = inl (AssertionError ""))
  /\ (r = inl (AssertionError "") ->
      forall model device,
        snd (factory_from_args' model device (mkWorld a c)) = inl (AssertionError ""))
  /\ ((kp <=? seed_threshold a)%float = true
      /\ (force_complete_pose a = true -> (kp =? 0.0)%float = true) ->
      r = inr tt).
Proof.
  intros kp r.
  split; [|split; [|split]].
  - intros Hlt. apply float_lt_not_ge in Hlt. subst kp r.
    destruct a as [? seed ? [k|] ? [|] ? ? ? ? ? ? ? ? ? ? ?]; simpl in Hlt;
      run_configure; repeat split_test; try reflexivity; try congruence;
      vm_compute in *; congruence.
  - intros [Hf Hz]. subst kp r.
    destruct a as [? seed ? [k|] ? [|] ? ? ? ? ? ? ? ? ? ? ?]; simpl in Hf, Hz;
      try discriminate; run_configure; repeat split_test;
      try reflexivity; try congruence; vm_compute in *; congruence.
  - intros Hr model device. subst r.
    now rewrite (factory_from_args_configure_raises _ _ _ _ Hr).
  - intros [Hge Hz]. subst kp r.
    destruct a as [? seed ? [k|] ? [|] ? ? dw bs dbg ? ? ? ? ? ?]; simpl in Hge, Hz;
      try specialize (Hz eq_refl); run_configure; repeat split_test;
      try congruence;
      try (destruct (_ && _); reflexivity);
      vm_compute in *; congruence.
Qed.

(** C4, as stated, fails: with [keypoint_threshold] unset,
    [force_complete_pose] off and a seed threshold of 0.0, the threshold
    is derived as 0.001, the check [seed_threshold >= keypoint_threshold]
    raises, and the assembler's keypoint threshold keeps its previous
    value 0.0. *)
Lemma keypoint_default_not_installed :
  let w := mkWorld Sample.args_low_seed Sample.class_attrs in
  keypoint_threshold Sample.args_low_seed = None
  /\ force_complete_pose Sample.args_low_seed = false
  /\ keypoint_threshold (args (fst (configure Sample.keypoints w))) = Some 0.001%float
  /\ snd (configure Sample.keypoints w) = inl (AssertionError "")
  /\ CifCaf_keypoint_threshold (cls (fst (configure Sample.keypoints w))) = Some 0.0%float
  /\ CifCaf_keypoint_threshold (cls (fst (configure Sample.keypoints w)))
     <> Some 0.001%float.
Proof.
  repeat split; try (vm_compute; reflexivity).
  intros H.
  apply (f_equal (fun o => match o with
                           | Some x => (x =? 0)%float
                           | None => false
                           end)) in H.
  vm_compute in H. discriminate.
Qed.

(** C4, amended: when [keypoint_threshold] is unset, [configure] stores
    0.0 in it if [force_complete_pose] is set and 0.001 otherwise;
    [configure] then returns normally exactly when [seed_threshold] is at
    least this derived value, and in that case the derived value is the
    assembler's keypoint threshold; when the check raises, the
    assembler's keypoint threshold is left as it was. *)
Theorem keypoint_threshold_default (a : Args) (c : ClassAttrs) :
  keypoint_threshold a = None ->
  let derived := if force_complete_pose a then 0.0%float else 0.001%float in
  let w := fst (configure COCO_KEYPOINTS (mkWorld a c)) in
  let r := snd (configure COCO_KEYPOINTS (mkWorld a c)) in
  keypoint_threshold (args w) = Some derived
  /\ (r = inr tt <-> (derived <=? seed_threshold a)%float = true)
  /\ (r = inr tt -> CifCaf_keypoint_threshold (cls w) = Some derived)
  /\ (r <> inr tt ->
      CifCaf_keypoint_threshold (cls w) = CifCaf_keypoint_threshold c).
Proof.
  intros Hnone derived w r. subst derived w r.
  destruct a as [? seed ? kp ? [|] ? ? dw bs dbg ? ? ? ? ? ?]; simpl in Hnone; subst kp;
    run_configure;
    change ((0 =? 0)%float) with true; cbv iota beta;
    split_test; cbn;
    try (destruct (_ && _); cbn);
    (split; [reflexivity|]); (split; [split|split]); congruence.
Qed.

(** C7, as stated, fails: with [--debug] and a batch size of 2,
    [configure] returns normally and [decoder_workers] stays unset; and
    when the consistency check raises, [decoder_workers] stays unset as
    well, whatever the batch size. *)
Lemma decoder_workers_unset_despite_batch :
  (decoder_workers Sample.args_debug = None
   /\ batch_size Sample.args_debug = Some 2
   /\ debug Sample.args_debug = true
   /\ configure Sample.keypoints (mkWorld Sample.args_debug Sample.class_attrs)
      = (fst (configure Sample.keypoints
                (mkWorld Sample.args_debug Sample.class_attrs)), inr tt)
   /\ decoder_workers
        (args (fst (configure Sample.keypoints
                      (mkWorld Sample.args_debug Sample.class_attrs)))) = None)
  /\ (decoder_workers Sample.args_low_seed = None
      /\ batch_size Sample.args_low_seed = Some 2
      /\ debug Sample.args_low_seed = false
      /\ snd (configure Sample.keypoints
                (mkWorld Sample.args_low_seed Sample.class_attrs))
         = inl (AssertionError "")
      /\ decoder_workers
           (args (fst (configure Sample.keypoints
                         (mkWorld Sample.args_low_seed Sample.class_attrs)))) = None).
Proof.
  repeat split; vm_compute; reflexivity.
Qed.

(** C7, amended: when [decoder_workers] is unset, [configure] sets it to
    the batch size exactly when [configure] gets past its consistency
    checks, the batch size is greater than 1 and [debug] is off;
    otherwise [decoder_workers] stays unset. *)
Theorem decoder_workers_default (a : Args) (c : ClassAttrs) :
  decoder_workers a = None ->
  let w := fst (configure COCO_KEYPOINTS (mkWorld a c)) in
  let r := snd (configure COCO_KEYPOINTS (mkWorld a c)) in
  (r = inr tt /\ 1 < getattr_batch_size a /\ debug a = false ->
   decoder_workers (args w) = Some (getattr_batch_size a))
  /\ (r <> inr tt \/ getattr_batch_size a <= 1 \/ debug a = true ->
      decoder_workers (args w) = None).
Proof.
  intros Hnone w r. subst w r.
  destruct a as [? seed ? kp ? f ? ? dw bs dbg ? ? ? ? ? ?]; simpl in Hnone; subst dw.
  unfold getattr_batch_size at 1 2 3; cbn [batch_size default].
  destruct kp as [k|], f; run_configure;
    try change ((0 =? 0)%float) with true; cbv iota beta;
    repeat split_test; cbn;
    destruct bs as [b|]; cbn;
    try destruct (Z.ltb_spec 1 b); destruct dbg; cbn;
    (split; [intros (Hr & Hb & Hd) | intros [Hr|[Hb|Hd]]]);
    try reflexivity; try congruence; try lia.
Qed.

End ConfigureFacts.

(** C1 on two runs: [--keypoint-threshold 0.5] above the default seed
    threshold 0.2 is refused, the command-line defaults are accepted. *)
Lemma configure_checks_invariants_witness :
  snd (configure Sample.keypoints
         (mkWorld Sample.args_high_keypoint Sample.class_attrs))
  = inl (AssertionError "")
  /\ snd (configure Sample.keypoints (mkWorld Sample.args_default Sample.class_attrs))
     = inr tt.
Proof.
  split.
  - refine (proj1 (configure_checks_invariants Sample.keypoints Sample.skeleton
                     Sample.denser Sample.field_config unit
                     Sample.args_high_keypoint Sample.class_attrs) _).
    vm_compute; reflexivity.
  - refine (proj2 (proj2 (proj2
              (configure_checks_invariants Sample.keypoints Sample.skeleton
                 Sample.denser Sample.field_config unit
                 Sample.args_default Sample.class_attrs))) _).
    split; [vm_compute; reflexivity | intros _; vm_compute; reflexivity].
Defined.

(** C4 (amended) on the command-line defaults: 0.0 is derived and
    installed. *)
Lemma keypoint_threshold_default_witness :
  let w := fst (configure Sample.keypoints
                  (mkWorld Sample.args_default Sample.class_attrs)) in
  keypoint_threshold (args w) = Some 0.0%float
  /\ CifCaf_keypoint_threshold (cls w) = Some 0.0%float.
Proof.
  destruct (keypoint_threshold_default Sample.keypoints Sample.args_default
              Sample.class_attrs eq_refl) as (H1 & H2 & H3 & _).
  split; [exact H1 | apply H3; vm_compute; reflexivity].
Defined.

(** C7 (amended) on the command-line defaults with a batch size of 2. *)
Lemma decoder_workers_default_witness :
  decoder_workers
    (args (fst (configure Sample.keypoints
                  (mkWorld Sample.args_default Sample.class_attrs)))) = Some 2.
Proof.
  refine (proj1 (decoder_workers_default Sample.keypoints Sample.args_default
                   Sample.class_attrs eq_refl) _).
  repeat split; vm_compute; reflexivity.
Defined.


(** ** [factory_decode] *)

(** Reduce attribute reads of an updated [FieldConfig]. *)
Ltac fc_simpl :=
  cbn [cif_indices caf_indices cif_strides caf_strides cif_min_scales
       caf_min_distances caf_max_distances confidence_scales cif_visualizers
       caf_visualizers set_cif_indices set_caf_indices set_cif_strides
       set_caf_strides set_cif_min_scales set_caf_min_distances
       set_caf_max_distances set_confidence_scales set_cif_visualizers
       set_caf_visualizers] in *.

Section FactoryDecodeFacts.

Context (COCO_KEYPOINTS : list string)
        (COCO_PERSON_SKELETON DENSER_COCO_PERSON_CONNECTIONS : list (Z * Z))
        (FieldConfig_new : FieldConfig) (PyObject : Type).

Abbreviation factory_decode' :=
  (factory_decode COCO_KEYPOINTS COCO_PERSON_SKELETON
     DENSER_COCO_PERSON_CONNECTIONS FieldConfig_new PyObject).
Abbreviation decode_cifcaf' :=
  (decode_cifcaf COCO_KEYPOINTS COCO_PERSON_SKELETON
     DENSER_COCO_PERSON_CONNECTIONS PyObject).

(** The dispatch of [factory_decode] on [caf_seeds] and the head names. *)
Lemma factory_decode_dispatch (model : Model) (dense_coupling : float)
    (dense_connections caf_seeds multi_scale multi_scale_hflip : bool)
    (kwargs : list (string * PyObject)) :
  factory_decode' model dense_coupling dense_connections caf_seeds
    multi_scale multi_scale_hflip kwargs =
  if caf_seeds then inl (AssertionError "not implemented")
  else if bool_decide (head_names model ∈ [ ["cifdet"] ]%string)
  then inl (NameError "CifDet")
  else if bool_decide (head_names model ∈ [ ["cif"; "caf"; "caf25"] ]%string)
  then snd (decode_cifcaf' model dense_coupling dense_connections
              multi_scale multi_scale_hflip kwargs FieldConfig_new)
  else inl (Exception_ "decoder unknown for head names: {}" (head_names model)).
Proof.
  unfold factory_decode. destruct caf_seeds; [reflexivity|].
  cbv [bind assert_ negb ret].
  destruct (bool_decide (head_names model ∈ [ ["cifdet"] ]%string)); [reflexivity|].
  destruct (bool_decide (head_names model ∈ [ ["cif"; "caf"; "caf25"] ]%string));
    [|reflexivity].
  cbv [load_global lift]. simpl.
  now destruct (decode_cifcaf' _ _ _ _ _ _ _) as [fc [e|d]].
Qed.

(** An exception raised by [factory_decode] leaves [factory_from_args]
    without a [Processor]. *)
Lemma factory_from_args_decode_raises (model : Model) (device : option string)
    (w : World) :
  (forall dense_coupling dense_connections caf_seeds multi_scale multi_scale_hflip,
     exists e, factory_decode' model dense_coupling dense_connections caf_seeds
                 multi_scale multi_scale_hflip [] = inl e) ->
  exists e,
    snd (factory_from_args COCO_KEYPOINTS COCO_PERSON_SKELETON
           DENSER_COCO_PERSON_CONNECTIONS FieldConfig_new PyObject model device w)
    = inl e.
Proof.
  intros Hdec. unfold factory_from_args. unfold bind at 1.
  destruct (configure COCO_KEYPOINTS w) as [w' [e|[]]]; [now exists e|].
  cbv [bind get_args lift].
  destruct (Hdec (dense_coupling (args w')) (dense_connections (args w'))
              (caf_seeds (args w')) (multi_scale (args w'))
              (multi_scale_hflip (args w'))) as [e ->].
  now exists e.
Qed.

(** C2: for a model whose head names are neither [('cifdet',)] nor
    [('cif', 'caf', 'caf25')], [factory_decode] raises (the assertion on
    [caf_seeds], or else the "decoder unknown" exception) and returns no
    decoder; [factory_from_args] on such a model therefore raises too
    and never builds a [Processor]. *)
Theorem factory_decode_unknown_heads (model : Model) (dense_coupling : float)
    (dense_connections caf_seeds multi_scale multi_scale_hflip : bool)
    (kwargs : list (string * PyObject)) :
  head_names model <> [ "cifdet" ]%string ->
  head_names model <> [ "cif"; "caf"; "caf25" ]%string ->
  factory_decode' model dense_coupling dense_connections caf_seeds
    multi_scale multi_scale_hflip kwargs
  = inl (if caf_seeds then AssertionError "not implemented"
         else Exception_ "decoder unknown for head names: {}" (head_names model))
  /\ forall device w, exists e,
       snd (factory_from_args COCO_KEYPOINTS COCO_PERSON_SKELETON
              DENSER_COCO_PERSON_CONNECTIONS FieldConfig_new PyObject model device w)
       = inl e.
Proof.
  intros Hdet Hcifcaf.
  assert (Hall : forall dc d cs ms msh kw,
             factory_decode' model dc d cs ms msh kw
             = inl (if cs then AssertionError "not implemented"
                    else Exception_ "decoder unknown for head names: {}"
                           (head_names model))).
  { intros. rewrite factory_decode_dispatch. destruct cs; [reflexivity|].
    rewrite !bool_decide_eq_false_2; [reflexivity| |];
      rewrite list_elem_of_singleton; assumption. }
  split; [apply Hall|].
  intros device w. apply factory_from_args_decode_raises.
  intros. rewrite Hall. eauto.
Qed.

(** A detection-only model never gets a decoder: the [CifDet] branch
    raises [NameError] (after the [caf_seeds] assertion). *)
Lemma factory_decode_cifdet_raises (model : Model) (dense_coupling : float)
    (dense_connections caf_seeds multi_scale multi_scale_hflip : bool)
    (kwargs : list (string * PyObject)) :
  head_names model = [ "cifdet" ]%string ->
  factory_decode' model dense_coupling dense_connections caf_seeds
    multi_scale multi_scale_hflip kwargs
  = inl (if caf_seeds then AssertionError "not implemented" else NameError "CifDet").
Proof.
  intros Hn. rewrite factory_decode_dispatch, Hn. now destruct caf_seeds.
Qed.

(** Lines 137-160 leave [confidence_scales] alone and do nothing in
    single-scale mode; in multi-scale mode they can only raise
    [IndexError], and when they return some CIF head index is 3 or more. *)
Lemma wp_configure_scales (model : Model)
    (dense_connections multi_scale multi_scale_hflip : bool) (fc : FieldConfig) :
  wp (configure_scales model dense_connections multi_scale multi_scale_hflip) fc
     (fun fc' _ =>
        confidence_scales fc' = confidence_scales fc
        /\ (multi_scale = false -> fc' = fc)
        /\ (multi_scale = true ->
            exists i stride, (i, stride) ∈ zip (cif_indices fc') (cif_strides fc')
                             /\ 3 <= i))
     (fun _ e => e = IndexError /\ multi_scale = true).
Proof.
  unfold configure_scales.
  destruct multi_scale;
    [|cbn; repeat wp_step; split; [reflexivity|]; split; [reflexivity|congruence]].
  destruct dense_connections, multi_scale_hflip; cbn [negb andb].
  all: repeat first [wp_strides | wp_step]; fc_simpl; try (split; reflexivity).
  all: (split; [reflexivity|]); (split; [congruence|]); intros _.
  all: match goal with
       | H : length ?ys = _ |- context [zip _ ?ys] =>
           destruct ys as [|a' [|b' [|c' ys]]]; try discriminate H;
           eexists _, c'
       end.
  all: split; [do 2 apply list_elem_of_further; apply list_elem_of_here|].
  all: cbn; lia.
Qed.

(** Lines 162-169 never raise. *)
Lemma wp_configure_skeleton (dense_coupling : float) (dense_connections : bool)
    (fc : FieldConfig) (E : FieldConfig -> Exn -> Prop) :
  wp (configure_skeleton COCO_PERSON_SKELETON DENSER_COCO_PERSON_CONNECTIONS
        dense_coupling dense_connections) fc
     (fun fc' skeleton =>
        if dense_connections then
          skeleton = COCO_PERSON_SKELETON ++ DENSER_COCO_PERSON_CONNECTIONS
          /\ fc' = set_confidence_scales
                     (Some (((fun _ => 1.0%float) <$> COCO_PERSON_SKELETON) ++
                            ((fun _ => dense_coupling) <$>
                               DENSER_COCO_PERSON_CONNECTIONS))) fc
        else skeleton = COCO_PERSON_SKELETON /\ fc' = fc)
     E.
Proof.
  unfold configure_skeleton. destruct dense_connections; repeat wp_step; auto.
Qed.

(** Lines 171-182 leave [confidence_scales] alone; they return only if
    every zipped CIF head index is a position of [model.head_names], and
    they can only raise [IndexError], which a [visualizable] configuration
    excludes. *)
Lemma wp_configure_visualizers (model : Model) (skeleton : list (Z * Z))
    (fc : FieldConfig) :
  wp (configure_visualizers COCO_KEYPOINTS model skeleton) fc
     (fun fc' _ =>
        confidence_scales fc' = confidence_scales fc
        /\ Forall (fun x => x.1 < len (head_names model))
                  (zip (cif_indices fc) (cif_strides fc)))
     (fun _ e => e = IndexError /\ ~ visualizable model fc).
Proof.
  unfold configure_visualizers. do 2 wp_step.
  apply wp_bind.
  eapply wp_mono;
    [apply (wp_comprehension _ _ (eq fc) (fun x _ => x.1 < len (head_names model))
              (fun _ e => e = IndexError /\ ~ visualizable model fc));
       [reflexivity|] | | auto].
  { intros [i stride] Hin s0 <-. do 2 wp_step.
    apply wp_bind, wp_lift.
    destruct (getitem (head_names model) i) as [e|name] eqn:Hname.
    { split; [eapply getitem_error, Hname|]. intros [Hv _].
      rewrite Forall_forall in Hv.
      destruct (getitem_in_bounds (head_names model) i) as [x Hx];
        [apply Hv; eapply elem_of_zip_l, Hin | congruence]. }
    wp_step. wp_step. apply wp_bind, wp_lift.
    destruct (getitem (cif_strides fc) i) as [e|s] eqn:Hs.
    { split; [eapply getitem_error, Hs|]. intros [Hv _].
      rewrite Forall_forall in Hv.
      destruct (getitem_in_bounds (cif_strides fc) i) as [x Hx]; [|congruence].
      specialize (Hv i (elem_of_zip_l _ _ _ _ Hin)). lia. }
    wp_step. split; [reflexivity|]. eapply getitem_returns_lt, Hname. }
  intros s' vs [<- Hvs]. apply Forall2_left in Hvs.
  do 3 wp_step.
  apply wp_bind.
  eapply wp_mono;
    [apply (wp_comprehension _ _ (eq (set_cif_visualizers (Some vs) fc))
              (fun _ _ => True)
              (fun _ e => e = IndexError /\ ~ visualizable model fc));
       [reflexivity|] | | auto].
  { intros [i stride] Hin s0 <-. do 2 wp_step.
    apply wp_bind, wp_lift.
    destruct (getitem (head_names model) i) as [e|name] eqn:Hname.
    { split; [eapply getitem_error, Hname|]. intros [_ Hv].
      rewrite Forall_forall in Hv.
      destruct (getitem_in_bounds (head_names model) i) as [x Hx];
        [apply Hv; eapply elem_of_zip_l, Hin | congruence]. }
    wp_step. auto. }
  intros s' vs' [<- _]. wp_step. split; [reflexivity | exact Hvs].
Qed.

(** The [('cif', 'caf', 'caf25')] branch as a whole. *)
Lemma wp_decode_cifcaf (model : Model) (dense_coupling : float)
    (dense_connections multi_scale multi_scale_hflip : bool)
    (kwargs : list (string * PyObject)) (fc : FieldConfig) :
  wp (decode_cifcaf COCO_KEYPOINTS COCO_PERSON_SKELETON
        DENSER_COCO_PERSON_CONNECTIONS PyObject model dense_coupling
        dense_connections multi_scale multi_scale_hflip kwargs) fc
     (fun fc' d =>
        d = CifCaf fc' COCO_KEYPOINTS
              (if dense_connections
               then COCO_PERSON_SKELETON ++ DENSER_COCO_PERSON_CONNECTIONS
               else COCO_PERSON_SKELETON)
              COCO_PERSON_SKELETON kwargs
        /\ confidence_scales fc'
           = (if dense_connections
              then Some (((fun _ => 1.0%float) <$> COCO_PERSON_SKELETON) ++
                         ((fun _ => dense_coupling) <$>
                            DENSER_COCO_PERSON_CONNECTIONS))
              else confidence_scales fc)
        /\ (multi_scale = true -> 3 < len (head_names model)))
     (fun _ e => e = IndexError /\ (multi_scale = true \/ ~ visualizable model fc)).
Proof.
  unfold decode_cifcaf. apply wp_bind.
  eapply wp_mono; [apply wp_configure_scales | | intros ? ? [-> ?]; auto].
  intros fc1 [] (Hcs & Hsingle & Hmulti). apply wp_bind.
  eapply wp_mono; [apply (wp_configure_skeleton _ _ _ (fun _ _ => False)) | | intros ? ? []].
  intros fc2 skeleton Hskel. apply wp_bind.
  eapply wp_mono; [apply wp_configure_visualizers | |].
  - intros fc3 [] [Hcs3 Hall]. do 3 wp_step.
    assert (Hm : multi_scale = true -> 3 < len (head_names model)).
    { intros Hms. destruct (Hmulti Hms) as (i & stride & Hin & Hi).
      rewrite Forall_forall in Hall.
      assert (Hin2 : (i, stride) ∈ zip (cif_indices fc2) (cif_strides fc2))
        by (destruct dense_connections, Hskel as [_ ->]; exact Hin).
      specialize (Hall _ Hin2). simpl in Hall. lia. }
    destruct dense_connections, Hskel as [-> ->];
      (split; [reflexivity|]); (split; [|exact Hm]); rewrite Hcs3; [reflexivity|exact Hcs].
  - intros s' e [-> Hnv]. split; [reflexivity|].
    destruct multi_scale; [now left|right].
    rewrite (Hsingle eq_refl) in Hskel.
    intros Hv. apply Hnv.
    destruct dense_connections, Hskel as [_ ->]; exact Hv.
Qed.

(** In multi-scale mode the [('cif', 'caf', 'caf25')] branch never returns
    a decoder: the three head names cannot be indexed by the multi-scale
    head indices, so an [IndexError] is raised at line 144, 156 or 172. *)
Lemma factory_decode_multi_scale_raises (model : Model) (dense_coupling : float)
    (dense_connections multi_scale_hflip : bool) (kwargs : list (string * PyObject)) :
  head_names model = [ "cif"; "caf"; "caf25" ]%string ->
  factory_decode' model dense_coupling dense_connections false true
    multi_scale_hflip kwargs = inl IndexError.
Proof.
  intros Hn. rewrite factory_decode_dispatch, Hn. cbn [bool_decide].
  rewrite bool_decide_eq_false_2 by (rewrite list_elem_of_singleton; discriminate).
  rewrite bool_decide_eq_true_2 by (now apply list_elem_of_singleton).
  pose proof (wp_decode_cifcaf model dense_coupling dense_connections true
                multi_scale_hflip kwargs FieldConfig_new) as Hwp.
  unfold wp in Hwp.
  destruct (decode_cifcaf' _ _ _ _ _ _ _) as [fc' [e|d]]; simpl.
  - now destruct Hwp as [-> _].
  - destruct Hwp as (_ & _ & Hlen). specialize (Hlen eq_refl).
    rewrite Hn in Hlen. unfold len in Hlen. simpl in Hlen. lia.
Qed.


End FactoryDecodeFacts.

(** C2 on a model with the head names [('pif', 'paf')]. *)
Lemma factory_decode_unknown_heads_witness :
  factory_decode Sample.keypoints Sample.skeleton Sample.denser Sample.field_config
    unit Sample.model_pif 0.01%float false false false true []
  = inl (Exception_ "decoder unknown for head names: {}" [ "pif"; "paf" ]%string).
Proof.
  refine (proj1 (factory_decode_unknown_heads Sample.keypoints Sample.skeleton
                   Sample.denser Sample.field_config unit Sample.model_pif
                   0.01%float false false false true [] _ _));
    discriminate.
Defined.

(** C3 does not hold of the code: on a model whose head names are
    [('cifdet',)], line 132 loads the name [CifDet], which the module
    never imports, and [factory_decode] raises [NameError] instead of
    returning a [CifDet] decoder. *)
Theorem factory_decode_cifdet_name_error :
  head_names Sample.model_cifdet = [ "cifdet" ]%string
  /\ bool_decide ("CifDet"%string ∈ module_globals) = false
  /\ factory_decode Sample.keypoints Sample.skeleton Sample.denser Sample.field_config
       unit Sample.model_cifdet 0.0%float false false false true []
     = inl (NameError "CifDet").
Proof.
  split; [reflexivity|]. split; [vm_compute; reflexivity|].
  apply (factory_decode_cifdet_raises Sample.keypoints Sample.skeleton Sample.denser
           Sample.field_config unit Sample.model_cifdet 0.0%float
           false false false true []).
  reflexivity.
Qed.


(** C6 does not hold of the code: with [multi_scale] and
    [multi_scale_hflip] on, [factory_decode] raises [IndexError] on the
    three-head model, with or without dense connections, and returns no
    decoder.  On a model that exposes thirty strides the field
    configuration does reach the ten index pairs and the duplicated
    scale and distance lists, and the [IndexError] is then raised while
    the visualizers are built. *)
Theorem factory_decode_multi_scale_hflip_index_error :
  factory_decode Sample.keypoints Sample.skeleton Sample.denser Sample.field_config
    unit Sample.model_cifcaf 0.01%float false false true true [] = inl IndexError
  /\ factory_decode Sample.keypoints Sample.skeleton Sample.denser Sample.field_config
       unit Sample.model_cifcaf 0.01%float true false true true [] = inl IndexError
  /\ factory_decode Sample.keypoints Sample.skeleton Sample.denser Sample.field_config
       unit Sample.model_wide 0.01%float false false true true [] = inl IndexError
  /\ (let run := decode_cifcaf Sample.keypoints Sample.skeleton Sample.denser unit
                   Sample.model_wide 0.01%float false true true []
                   Sample.field_config in
      snd run = inl IndexError
      /\ cif_indices (fst run) = [0; 3; 6; 9; 12; 15; 18; 21; 24; 27]
      /\ caf_indices (fst run) = [1; 4; 7; 10; 13; 16; 19; 22; 25; 28]
      /\ cif_min_scales (fst run)
         = [0.0; 12.0; 16.0; 24.0; 40.0]%float ++ [0.0; 12.0; 16.0; 24.0; 40.0]%float
      /\ caf_min_distances (fst run)
         = [0.0; 36.0; 48.0; 72.0; 120.0]%float ++ [0.0; 36.0; 48.0; 72.0; 120.0]%float
      /\ caf_max_distances (fst run)
         = [Some 160.0; Some 240.0; Some 320.0; Some 480.0; None]%float
           ++ [Some 160.0; Some 240.0; Some 320.0; Some 480.0; None]%float
      /\ cif_visualizers (fst run) = None).
Proof.
  repeat split; vm_compute; reflexivity.
Qed.

(** * Further properties of the decoder factory *)

Section ConfigureMore.

Context (COCO_KEYPOINTS : list string).

(** X1: [configure] is idempotent: running it a second time on the
    namespace and class attributes it left behind changes nothing and
    raises nothing new, so [configure; configure] and [configure] have
    the same outcome on every namespace. *)
Theorem configure_idempotent (w : World) :
  bind (configure COCO_KEYPOINTS) (fun _ => configure COCO_KEYPOINTS) w
  = configure COCO_KEYPOINTS w.
Proof.
  destruct w as [a c]. destruct c.
  destruct a as [? seed ? [k|] ? f ? ? [dw|] [bs|] dbg ? ? ? ? ? ?];
    destruct f, dbg; try (destruct (1 <? bs) eqn:Hbs);
    unfold bind at 1; run_configure;
    try change ((0 =? 0)%float) with true;
    repeat first
      [ match goal with
        | H : ?b = _ |- context [?b] => rewrite H
        end
      | split_test
      | progress cbn ];
    reflexivity.
Qed.

End ConfigureMore.

Section FactoryFromArgsMore.

Context (COCO_KEYPOINTS : list string)
        (COCO_PERSON_SKELETON DENSER_COCO_PERSON_CONNECTIONS : list (Z * Z))
        (FieldConfig_new : FieldConfig) (PyObject : Type).

(** What a run of [configure] that returns normally leaves behind. *)
Lemma configure_returns (w : World) :
  snd (configure COCO_KEYPOINTS w) = inr tt ->
  let w' := fst (configure COCO_KEYPOINTS w) in
  (exists k,
     keypoint_threshold (args w') = Some k
     /\ CifCaf_keypoint_threshold (cls w') = Some k
     /\ (k <=? seed_threshold (args w))%float = true
     /\ (force_complete_pose (args w) = true -> (k =? 0)%float = true))
  /\ CifSeeds_threshold (cls w') = seed_threshold (args w)
  /\ CifCaf_force_complete (cls w') = force_complete_pose (args w)
  /\ dense_coupling (args w') = dense_coupling (args w)
  /\ dense_connections (args w') = dense_connections (args w)
  /\ caf_seeds (args w') = caf_seeds (args w)
  /\ multi_scale (args w') = multi_scale (args w)
  /\ multi_scale_hflip (args w') = multi_scale_hflip (args w).
Proof.
  destruct w as [a c].
  destruct a as [? seed ? [k|] ? f ? ? dw bs dbg ? ? ? ? ? ?];
    destruct f; run_configure;
    try change ((0 =? 0)%float) with true; cbv iota beta;
    repeat split_test; cbn; try discriminate;
    try (destruct (_ && _); cbn); intros _;
    (split; [eexists; repeat split; try reflexivity; try assumption;
             try (intros; assumption); try discriminate
            | repeat split]).
Qed.

(** [factory_from_args] step by step. *)
Lemma factory_from_args_run (model : Model) (device : option string) (w : World) :
  factory_from_args COCO_KEYPOINTS COCO_PERSON_SKELETON
    DENSER_COCO_PERSON_CONNECTIONS FieldConfig_new PyObject model device w
  = match configure COCO_KEYPOINTS w with
    | (w1, inl e) => (w1, inl e)
    | (w1, inr _) =>
        match factory_decode COCO_KEYPOINTS COCO_PERSON_SKELETON
                DENSER_COCO_PERSON_CONNECTIONS FieldConfig_new PyObject model
                (dense_coupling (args w1)) (dense_connections (args w1))
                (caf_seeds (args w1)) (multi_scale (args w1))
                (multi_scale_hflip (args w1)) [] with
        | inl e => (w1, inl e)
        | inr d =>
            (w1, inr (mkProcessor model d (instance_threshold (args w1))
                        (keypoint_threshold (args w1)) (profile_decoder (args w1))
                        (decoder_workers (args w1)) device))
        end
    end.
Proof.
  unfold factory_from_args. cbv [bind get_args lift ret].
  destruct (configure COCO_KEYPOINTS w) as [w1 [e|[]]]; [reflexivity|].
  now destruct (factory_decode _ _ _ _ _ _ _ _ _ _ _ _).
Qed.

(** A single-scale [('cif', 'caf', 'caf25')] model whose default head
    indices are in range gets its decoder. *)
Lemma factory_decode_single_scale_returns (model : Model) (dense_coupling : float)
    (dense_connections multi_scale_hflip : bool) (kwargs : list (string * PyObject)) :
  head_names model = [ "cif"; "caf"; "caf25" ]%string ->
  visualizable model FieldConfig_new ->
  exists d,
    factory_decode COCO_KEYPOINTS COCO_PERSON_SKELETON
      DENSER_COCO_PERSON_CONNECTIONS FieldConfig_new PyObject model dense_coupling
      dense_connections false false multi_scale_hflip kwargs = inr d.
Proof.
  intros Hn Hv. rewrite factory_decode_dispatch, Hn.
  rewrite bool_decide_eq_false_2 by (rewrite list_elem_of_singleton; discriminate).
  rewrite bool_decide_eq_true_2 by (now apply list_elem_of_singleton).
  pose proof (wp_decode_cifcaf COCO_KEYPOINTS COCO_PERSON_SKELETON
                DENSER_COCO_PERSON_CONNECTIONS PyObject model dense_coupling
                dense_connections false multi_scale_hflip kwargs FieldConfig_new) as Hwp.
  unfold wp in Hwp.
  destruct (decode_cifcaf _ _ _ _ _ _ _ _ _ _ _) as [fc' [e|d]]; simpl;
    [|now exists d].
  destruct Hwp as [_ [Hms|Hnv]]; [discriminate | contradiction].
Qed.

(** X2: whenever [factory_from_args] returns a [Processor], the keypoint
    threshold it was given is the one installed on the [CifCaf]
    assembler, it is not above the seed threshold installed on
    [CifSeeds], it is zero when [force_complete_pose] is set, and the
    worker pool is the namespace's [decoder_workers]; and a [Processor]
    is returned on every [('cif', 'caf', 'caf25')] model whose default
    head indices are in range once [configure] accepts a namespace in
    which [caf_seeds] and [multi_scale] are off. *)
Theorem factory_from_args_processor (model : Model) (device : option string)
    (w : World) :
  let run := factory_from_args COCO_KEYPOINTS COCO_PERSON_SKELETON
               DENSER_COCO_PERSON_CONNECTIONS FieldConfig_new PyObject
               model device w in
  (forall p, snd run = inr p ->
     exists k,
       proc_keypoint_threshold p = Some k
       /\ CifCaf_keypoint_threshold (cls (fst run)) = Some k
       /\ CifSeeds_threshold (cls (fst run)) = seed_threshold (args w)
       /\ (k <=? seed_threshold (args w))%float = true
       /\ (force_complete_pose (args w) = true -> (k =? 0)%float = true)
       /\ proc_worker_pool p = decoder_workers (args (fst run)))
  /\ (head_names model = [ "cif"; "caf"; "caf25" ]%string ->
      caf_seeds (args w) = false -> multi_scale (args w) = false ->
      visualizable model FieldConfig_new ->
      snd (configure COCO_KEYPOINTS w) = inr tt ->
      exists p, snd run = inr p).
Proof.
  intros run. subst run. rewrite factory_from_args_run.
  pose proof (configure_returns w) as Hc.
  destruct (configure COCO_KEYPOINTS w) as [w1 [e|[]]]; simpl in Hc.
  { split; [intros p [=] | intros _ _ _ _ [=]]. }
  destruct (Hc eq_refl) as ((k & Hk1 & Hk2 & Hk3 & Hk4) & Hseed & _ & Hdc & Hdn & Hcs
                            & Hms & Hmsh).
  split.
  - intros p.
    destruct (factory_decode _ _ _ _ _ _ _ _ _ _ _ _) as [e|d]; simpl; [discriminate|].
    intros [= <-]. exists k. simpl. auto 10.
  - intros Hn Hcaf Hmulti Hv _. rewrite Hcs, Hms, Hcaf, Hmulti.
    destruct (factory_decode_single_scale_returns model (dense_coupling (args w1))
                (dense_connections (args w1)) (multi_scale_hflip (args w1)) []
                Hn Hv) as [d ->].
    simpl. eauto.
Qed.

(** The visualizers lines 171-182 build, entry by entry. *)
Lemma wp_configure_visualizers_built (model : Model) (skeleton : list (Z * Z))
    (fc : FieldConfig) :
  wp (configure_visualizers COCO_KEYPOINTS model skeleton) fc
     (fun fc' _ =>
        exists vs vs',
          fc' = set_caf_visualizers (Some vs') (set_cif_visualizers (Some vs) fc)
          /\ Forall2 (fun x v =>
                        exists name s,
                          getitem (head_names model) x.1 = inr name
                          /\ getitem (cif_strides fc) x.1 = inr s
                          /\ v = Visualizer.Cif name s COCO_KEYPOINTS skeleton)
                     (zip (cif_indices fc) (cif_strides fc)) vs
          /\ Forall2 (fun x v =>
                        exists name,
                          getitem (head_names model) x.1 = inr name
                          /\ v = Visualizer.Caf name x.2 COCO_KEYPOINTS skeleton)
                     (zip (caf_indices fc) (caf_strides fc)) vs')
     (fun _ e => e = IndexError).
Proof.
  unfold configure_visualizers. do 2 wp_step.
  apply wp_bind.
  eapply wp_mono;
    [apply (wp_comprehension _ _ (eq fc)
              (fun x v =>
                 exists name s,
                   getitem (head_names model) x.1 = inr name
                   /\ getitem (cif_strides fc) x.1 = inr s
                   /\ v = Visualizer.Cif name s COCO_KEYPOINTS skeleton)
              (fun _ e => e = IndexError));
       [reflexivity|] | | auto].
  { intros [i stride] Hin s0 <-. do 2 wp_step.
    apply wp_bind, wp_lift.
    destruct (getitem (head_names model) i) as [e|name] eqn:Hname;
      [eapply getitem_error, Hname|].
    do 2 wp_step. apply wp_bind, wp_lift.
    destruct (getitem (cif_strides fc) i) as [e|s] eqn:Hs;
      [eapply getitem_error, Hs|].
    wp_step. split; [reflexivity|]. simpl. eauto. }
  intros s' vs [<- Hvs]. do 3 wp_step.
  apply wp_bind.
  eapply wp_mono;
    [apply (wp_comprehension _ _ (eq (set_cif_visualizers (Some vs) fc))
              (fun x v =>
                 exists name,
                   getitem (head_names model) x.1 = inr name
                   /\ v = Visualizer.Caf name x.2 COCO_KEYPOINTS skeleton)
              (fun _ e => e = IndexError));
       [reflexivity|] | | auto].
  { intros [i stride] Hin s0 <-. do 2 wp_step.
    apply wp_bind, wp_lift.
    destruct (getitem (head_names model) i) as [e|name] eqn:Hname;
      [eapply getitem_error, Hname|].
    wp_step. split; [reflexivity|]. simpl. eauto. }
  intros s' vs' [<- Hvs']. wp_step. exists vs, vs'. auto.
Qed.

(** X3: in single-scale mode the decoder [factory_decode] returns works
    on the index, stride, scale and distance lists of [FieldConfig()]
    unchanged.  It carries one [Cif] visualizer per zipped (CIF head
    index, stride) pair, named after the model's head at that index and
    with the stride found at position [index] of [cif_strides], and one
    [Caf] visualizer per zipped (CAF head index, stride) pair, with the
    zipped stride. *)
Theorem factory_decode_single_scale_config (model : Model) (dense_coupling : float)
    (dense_connections caf_seeds multi_scale_hflip : bool)
    (kwargs : list (string * PyObject)) (d : Decoder PyObject) :
  factory_decode COCO_KEYPOINTS COCO_PERSON_SKELETON
    DENSER_COCO_PERSON_CONNECTIONS FieldConfig_new PyObject model dense_coupling
    dense_connections caf_seeds false multi_scale_hflip kwargs = inr d ->
  exists fc skeleton vs vs',
    d = CifCaf fc COCO_KEYPOINTS skeleton COCO_PERSON_SKELETON kwargs
    /\ cif_indices fc = cif_indices FieldConfig_new
    /\ caf_indices fc = caf_indices FieldConfig_new
    /\ cif_strides fc = cif_strides FieldConfig_new
    /\ caf_strides fc = caf_strides FieldConfig_new
    /\ cif_min_scales fc = cif_min_scales FieldConfig_new
    /\ caf_min_distances fc = caf_min_distances FieldConfig_new
    /\ caf_max_distances fc = caf_max_distances FieldConfig_new
    /\ cif_visualizers fc = Some vs
    /\ caf_visualizers fc = Some vs'
    /\ Forall2 (fun x v =>
                  exists name s,
                    getitem (head_names model) x.1 = inr name
                    /\ getitem (cif_strides FieldConfig_new) x.1 = inr s
                    /\ v = Visualizer.Cif name s COCO_KEYPOINTS skeleton)
               (zip (cif_indices FieldConfig_new) (cif_strides FieldConfig_new)) vs
    /\ Forall2 (fun x v =>
                  exists name,
                    getitem (head_names model) x.1 = inr name
                    /\ v = Visualizer.Caf name x.2 COCO_KEYPOINTS skeleton)
               (zip (caf_indices FieldConfig_new) (caf_strides FieldConfig_new)) vs'.
Proof.
  rewrite factory_decode_dispatch.
  destruct caf_seeds; [discriminate|].
  destruct (bool_decide (_ ∈ [ ["cifdet"] ]%string)); [discriminate|].
  destruct (bool_decide (_ ∈ [ ["cif"; "caf"; "caf25"] ]%string)); [|discriminate].
  assert (Hwp :
    wp (decode_cifcaf COCO_KEYPOINTS COCO_PERSON_SKELETON
          DENSER_COCO_PERSON_CONNECTIONS PyObject model dense_coupling
          dense_connections false multi_scale_hflip kwargs) FieldConfig_new
       (fun fc d =>
          exists skeleton vs vs' fc0,
            d = CifCaf fc COCO_KEYPOINTS skeleton COCO_PERSON_SKELETON kwargs
            /\ fc = set_caf_visualizers (Some vs') (set_cif_visualizers (Some vs) fc0)
            /\ (fc0 = FieldConfig_new
                \/ exists cs, fc0 = set_confidence_scales cs FieldConfig_new)
            /\ Forall2 (fun x v =>
                          exists name s,
                            getitem (head_names model) x.1 = inr name
                            /\ getitem (cif_strides fc0) x.1 = inr s
                            /\ v = Visualizer.Cif name s COCO_KEYPOINTS skeleton)
                       (zip (cif_indices fc0) (cif_strides fc0)) vs
            /\ Forall2 (fun x v =>
                          exists name,
                            getitem (head_names model) x.1 = inr name
                            /\ v = Visualizer.Caf name x.2 COCO_KEYPOINTS skeleton)
                       (zip (caf_indices fc0) (caf_strides fc0)) vs')
       (fun _ _ => True)).
  { unfold decode_cifcaf. apply wp_bind.
    eapply wp_mono; [apply wp_configure_scales | | auto].
    intros fc1 [] (_ & Hsingle & _). rewrite (Hsingle eq_refl). apply wp_bind.
    eapply wp_mono;
      [apply (wp_configure_skeleton _ _ _ _ _ (fun _ _ => True)) | | auto].
    intros fc2 skeleton Hskel. apply wp_bind.
    eapply wp_mono; [apply wp_configure_visualizers_built | | auto].
    intros fc3 [] (vs & vs' & -> & Hvs & Hvs'). do 3 wp_step.
    exists skeleton, vs, vs', fc2. repeat split; try assumption.
    destruct dense_connections, Hskel as [_ ->]; eauto. }
  unfold wp in Hwp.
  destruct (decode_cifcaf _ _ _ _ _ _ _ _ _ _ _) as [fc [e|d']]; simpl; [discriminate|].
  intros [= <-].
  destruct Hwp as (skeleton & vs & vs' & fc0 & -> & -> & Hfc0 & Hvs & Hvs').
  exists (set_caf_visualizers (Some vs') (set_cif_visualizers (Some vs) fc0)),
    skeleton, vs, vs'.
  destruct Hfc0 as [->|[cs ->]]; repeat split; assumption.
Qed.

End FactoryFromArgsMore.

(** * Further properties of the dental plugin constants *)

Module DentalMore.
Import Dental.

(** [l[i]] for [-len(l) <= i < len(l)] is the element at position
    [i mod len(l)]. *)
Lemma getitem_wraps {A} (l : list A) (i : Z) :
  - len l <= i < len l ->
  exists x, getitem l i = inr x /\ l !! Z.to_nat (i mod len l) = Some x.
Proof.
  intros Hi. unfold getitem.
  assert (Hlen : 0 < len l) by lia.
  destruct (Z.ltb_spec i 0) as [Hneg|Hpos].
  - destruct (Z.ltb_spec (i + len l) 0) as [?|_]; [lia|].
    replace (i mod len l) with (i + len l)
      by (apply Z.mod_unique with (-1); lia).
    destruct (lookup_lt_is_Some_2 l (Z.to_nat (i + len l))) as [x Hx];
      [unfold len in *; lia|].
    exists x. now rewrite Hx.
  - destruct (Z.ltb_spec i 0) as [?|_]; [lia|].
    rewrite Z.mod_small by lia.
    destruct (lookup_lt_is_Some_2 l (Z.to_nat i)) as [x Hx];
      [unfold len in *; lia|].
    exists x. now rewrite Hx.
Qed.

Lemma getitem_outside {A} (l : list A) (i : Z) :
  i < - len l \/ len l <= i -> getitem l i = inl IndexError.
Proof.
  intros Hi. unfold getitem.
  destruct (Z.ltb_spec i 0) as [Hneg|Hpos].
  - destruct (Z.ltb_spec (i + len l) 0) as [?|?]; [reflexivity|].
    destruct Hi as [?|?]; [lia | unfold len in *; lia].
  - destruct (Z.ltb_spec i 0) as [?|_]; [lia|].
    rewrite lookup_ge_None_2; [reflexivity | unfold len in *; lia].
Qed.

(** The loop of [print_associations] on edges whose indices can all be
    looked up. *)
Lemma print_edges_in_range (kps : list string) (skel : list (Z * Z))
    (out : list string) :
  Forall (fun e => 1 - len kps <= e.1 <= len kps /\ 1 - len kps <= e.2 <= len kps)
         skel ->
  let name j := default ""%string (kps !! Z.to_nat ((j - 1) mod len kps)) in
  for_each (fun '(j1, j2) =>
              k1 <- lift (getitem kps (j1 - 1)) ;;
              k2 <- lift (getitem kps (j2 - 1)) ;;
              print3 k1 "-" k2)%py skel out
  = (out ++ ((fun e => name e.1 +:+ " - " +:+ name e.2) <$> skel), inr tt).
Proof.
  intros Hb name. revert out.
  induction Hb as [|[j1 j2] skel [H1 H2] _ IH]; intros pre; simpl.
  - now rewrite app_nil_r.
  - simpl in H1, H2.
    destruct (getitem_wraps kps (j1 - 1)) as (k1 & E1 & L1); [lia|].
    destruct (getitem_wraps kps (j2 - 1)) as (k2 & E2 & L2); [lia|].
    unfold bind at 1. unfold bind at 1 2. unfold lift. rewrite E1, E2.
    unfold print3, modify. rewrite IH.
    assert (N1 : name j1 = k1) by (unfold name; now rewrite L1).
    assert (N2 : name j2 = k2) by (unfold name; now rewrite L2).
    rewrite N1, N2, <- app_assoc. reflexivity.
Qed.

Lemma for_each_app {St A} (body : A -> M St unit) (l1 l2 : list A) (s : St) :
  for_each body (l1 ++ l2) s
  = bind (for_each body l1) (fun _ => for_each body l2) s.
Proof.
  revert s. induction l1 as [|x l1 IH]; intros s; simpl; [reflexivity|].
  unfold bind at 1 2 3. destruct (body x s) as [s1 [e|[]]]; [reflexivity|].
  rewrite IH. reflexivity.
Qed.

(** X4: on a skeleton whose indices all lie between [1 - len(kps)] and
    [len(kps)], [print_associations] keeps what was printed before, adds
    the header and then exactly one line per edge, in skeleton order,
    naming the keypoints at positions [(j - 1) mod len(kps)]: a 0 or
    negative index is not rejected but counts from the end of the
    keypoint list. *)
Theorem print_associations_output (kps : list string) (skel : list (Z * Z))
    (out : list string) :
  Forall (fun e => 1 - len kps <= e.1 <= len kps /\ 1 - len kps <= e.2 <= len kps)
         skel ->
  let name j := default ""%string (kps !! Z.to_nat ((j - 1) mod len kps)) in
  print_associations_of kps skel out
  = (out ++ String (Ascii.ascii_of_nat 10)
               "Associations of the tooth skeleton with 24 keypoints"
         :: ((fun e => name e.1 +:+ " - " +:+ name e.2) <$> skel),
     inr tt).
Proof.
  intros Hb name. unfold print_associations_of, bind at 1, print1, modify.
  cbv beta. rewrite (print_edges_in_range kps skel _ Hb).
  now rewrite <- app_assoc.
Qed.

(** X5: when some edge has an index above [len(kps)] or below
    [1 - len(kps)], [print_associations] raises [IndexError] at the first
    such edge; the header and the lines of the edges before it have
    already been printed, nothing is printed for that edge or the edges
    after it. *)
Theorem print_associations_index_error (kps : list string)
    (before after : list (Z * Z)) (e : Z * Z) (out : list string) :
  Forall (fun e => 1 - len kps <= e.1 <= len kps /\ 1 - len kps <= e.2 <= len kps)
         before ->
  (e.1 < 1 - len kps \/ len kps < e.1) \/ (e.2 < 1 - len kps \/ len kps < e.2) ->
  let name j := default ""%string (kps !! Z.to_nat ((j - 1) mod len kps)) in
  print_associations_of kps (before ++ e :: after) out
  = (out ++ String (Ascii.ascii_of_nat 10)
               "Associations of the tooth skeleton with 24 keypoints"
         :: ((fun e => name e.1 +:+ " - " +:+ name e.2) <$> before),
     inl IndexError).
Proof.
  intros Hb He name. unfold print_associations_of, bind at 1, print1, modify.
  cbv beta. rewrite for_each_app. unfold bind at 1.
  rewrite (print_edges_in_range kps before _ Hb). fold name.
  rewrite <- app_assoc. simpl. destruct e as [j1 j2]; simpl in He.
  unfold bind at 1. unfold bind at 1. unfold lift.
  destruct (getitem kps (j1 - 1)) as [err|k1] eqn:E1.
  - now rewrite (getitem_error _ _ _ E1).
  - apply getitem_returns_lt in E1 as Hlt.
    assert (H1 : 1 - len kps <= j1 <= len kps).
    { split; [|lia].
      destruct (Z.le_gt_cases (1 - len kps) j1) as [?|Hlo]; [assumption|].
      rewrite (getitem_outside kps (j1 - 1)) in E1 by lia. discriminate. }
    unfold bind at 1.
    rewrite (getitem_outside kps (j2 - 1)) by lia. reflexivity.
Qed.

End DentalMore.

(** * Properties of [visualizer.configure] *)

Module VisualizerCliFacts.
Import VisualizerCli.
Import Stdlib.Strings.Ascii.

Lemma partition_at_separator (h t : string) (sep : ascii) :
  ~ In sep (Stdlib.Strings.String.list_ascii_of_string h) ->
  partition (h +:+ String sep t) sep = (h, String sep EmptyString, t).
Proof.
  induction h as [|c h IH]; intros Hsep; simpl.
  - now rewrite Ascii.eqb_refl.
  - destruct (Ascii.eqb_spec c sep) as [->|_]; [exfalso; apply Hsep; now left|].
    rewrite IH; [reflexivity|]. intros Hin. apply Hsep. now right.
Qed.

Lemma partition_without_separator (s : string) (sep : ascii) :
  ~ In sep (Stdlib.Strings.String.list_ascii_of_string s) ->
  partition s sep = (s, EmptyString, EmptyString).
Proof.
  induction s as [|c s IH]; intros Hsep; simpl; [reflexivity|].
  destruct (Ascii.eqb_spec c sep) as [->|_]; [exfalso; apply Hsep; now left|].
  rewrite IH; [reflexivity|]. intros Hin. apply Hsep. now right.
Qed.

Section WithInt.

Variable int_ : string -> option Z.

Lemma parse_all_fails (l : list (string * string * string)) :
  Exists (fun x => int_ x.2 = None) l -> parse_all int_ l = None.
Proof.
  induction 1 as [[[h m] t] l Hx|[[h m] t] l _ IH]; simpl in *.
  - now rewrite Hx.
  - destruct (int_ t); [now rewrite IH | reflexivity].
Qed.

Lemma parse_all_returns (entries : list (string * string * Z)) :
  Forall (fun x => int_ x.1.2 = Some x.2) entries ->
  parse_all int_ ((fun x => (x.1.1, String ":" EmptyString, x.1.2)) <$> entries)
  = Some ((fun x => (x.1.1, x.2)) <$> entries).
Proof.
  induction 1 as [|[[h r] n] l Hx _ IH]; [reflexivity|].
  rewrite !fmap_cons. cbn [parse_all fst snd] in *. now rewrite Hx, IH.
Qed.

(** X6: when every entry of [--debug-indices] is [head:index] with no
    colon in [head] and an [index] that [int] accepts, [configure]
    returns normally and both [BaseVisualizer.all_indices] and
    [args.debug_indices] hold the pairs [(head, int(index))], one per
    entry and in the same order. *)
Theorem configure_indices_parsed (entries : list (string * string * Z))
    (a : Args) (c : ClassAttrs) :
  Forall (fun x => ~ In ":"%char (Stdlib.Strings.String.list_ascii_of_string x.1.1)
                   /\ int_ x.1.2 = Some x.2) entries ->
  debug_indices a = Strings ((fun x => x.1.1 +:+ String ":" x.1.2) <$> entries) ->
  let run := configure int_ (mkWorld a c) in
  let pairs := (fun x => (x.1.1, x.2)) <$> entries in
  snd run = inr tt
  /\ BaseVisualizer_all_indices (cls (fst run)) = pairs
  /\ debug_indices (args (fst run)) = Pairs pairs.
Proof.
  intros Hentries Ha run pairs. subst run pairs. unfold configure.
  cbn [args cls]. rewrite Ha. cbn [partition_all].
  rewrite <- list_fmap_compose.
  erewrite (list_fmap_ext _ (fun x => (x.1.1, String ":" EmptyString, x.1.2)) entries).
  2:{ intros i x Hx. cbn.
      apply partition_at_separator.
      rewrite Forall_forall in Hentries.
      apply (Hentries x). eapply list_elem_of_lookup_2, Hx. }
  rewrite parse_all_returns by (eapply Forall_impl; [exact Hentries|]; now intros x [_ ?]).
  cbn. destruct (debug a); cbn; auto.
Qed.

(** An index text that [int] rejects makes line 25 raise. *)
Lemma configure_index_rejected (l : list string) (a : Args) (c : ClassAttrs) :
  debug_indices a = Strings l ->
  Exists (fun s => int_ (partition s ":"%char).2 = None) l ->
  configure int_ (mkWorld a c)
  = (mkWorld (set_debug_indices (Triples ((fun s => partition s ":"%char) <$> l)) a) c,
     inl ValueError).
Proof.
  intros Ha Hbad. unfold configure. cbn [args cls]. rewrite Ha. cbn [partition_all].
  rewrite parse_all_fails; [reflexivity|].
  rewrite Exists_fmap. exact Hbad.
Qed.

(** X7: [int('')] being an error, an entry of [--debug-indices] without
    a colon makes [configure] raise [ValueError] at line 25: no class
    attribute has been assigned, and [args.debug_indices] is left
    holding the partitioned triples of line 24. *)
Theorem configure_index_without_colon (l : list string) (a : Args) (c : ClassAttrs) :
  int_ EmptyString = None ->
  debug_indices a = Strings l ->
  Exists (fun s => ~ In ":"%char (Stdlib.Strings.String.list_ascii_of_string s)) l ->
  configure int_ (mkWorld a c)
  = (mkWorld (set_debug_indices (Triples ((fun s => partition s ":"%char) <$> l)) a) c,
     inl ValueError).
Proof.
  intros Hempty Ha Hbad. apply configure_index_rejected; [exact Ha|].
  eapply Exists_impl; [exact Hbad|].
  intros s Hs. cbv beta. now rewrite partition_without_separator.
Qed.

(** X8: once the indices are parsed, [--debug] switches on the
    background, confidence and regression display of [Cif] and [Caf] and
    the [Occupancy] and [Seeds] visualizers whatever the individual
    [--debug-*] flags say, but not [CifHr], which follows
    [--debug-cifhr] alone; without [--debug] the four confidence and
    regression flags are the namespace's and the background, [Occupancy]
    and [Seeds] settings are left as they were. *)
Theorem configure_debug_overrides (a : Args) (c : ClassAttrs) :
  snd (configure int_ (mkWorld a c)) = inr tt ->
  let c' := cls (fst (configure int_ (mkWorld a c))) in
  CifHr_show c' = debug_cifhr a
  /\ (debug a = true ->
      Cif_show_background c' = true /\ Cif_show_confidences c' = true
      /\ Cif_show_regressions c' = true /\ Caf_show_background c' = true
      /\ Caf_show_confidences c' = true /\ Caf_show_regressions c' = true
      /\ Occupancy_show c' = true /\ Seeds_show c' = true)
  /\ (debug a = false ->
      Cif_show_confidences c' = debug_cif_c a
      /\ Cif_show_regressions c' = debug_cif_v a
      /\ Caf_show_confidences c' = debug_caf_c a
      /\ Caf_show_regressions c' = debug_caf_v a
      /\ Cif_show_background c' = Cif_show_background c
      /\ Caf_show_background c' = Caf_show_background c
      /\ Occupancy_show c' = Occupancy_show c
      /\ Seeds_show c' = Seeds_show c).
Proof.
  unfold configure. cbn [args cls].
  destruct (partition_all (debug_indices a)) as [e|triples]; [discriminate|].
  destruct (parse_all int_ triples) as [pairs|]; [|discriminate].
  intros _. cbn. destruct a as [di ? ? ? ? ? dbg]; cbn.
  destruct dbg; cbn; repeat split; intros; try reflexivity; discriminate.
Qed.

(** X9: [configure] replaces [args.debug_indices] by the parsed pairs,
    so it cannot be run again on the namespace it has processed: when
    at least one index was given the second run raises
    [AttributeError] (a pair has no [partition]) and changes nothing;
    with no index the second run returns normally and changes
    nothing. *)
Theorem configure_second_run (w : World) :
  snd (configure int_ w) = inr tt ->
  let w' := fst (configure int_ w) in
  configure int_ w'
  = (w', if bool_decide (BaseVisualizer_all_indices (cls w') = [])
         then inr tt else inl (AttributeError "partition")).
Proof.
  destruct w as [a c]. unfold configure at 1 2. cbn [args cls].
  destruct (partition_all (debug_indices a)) as [e|triples]; [discriminate|].
  destruct (parse_all int_ triples) as [pairs|]; [|discriminate].
  intros _. cbn [fst]. unfold configure. cbn [args cls].
  destruct a as [di ? ? ? ? ? dbg]; cbn.
  destruct pairs as [|p pairs]; destruct dbg; cbn; reflexivity.
Qed.

End WithInt.

End VisualizerCliFacts.

(** * Properties of the dental data module *)

Module DentalKpFacts.
Import DentalKp.

(** [get_constants] sets every [z] of [POSE] to 2.0 and keeps the rows'
    [x] and [y]; it never raises. *)
Lemma get_constants_run (pose : Pose) :
  get_constants pose
  = ((fun '(x, y, _) => (x, y, 2.0%float)) <$> pose,
     inr (mkConstants Dental.KEYPOINTS Dental.SKELETON Dental.HFLIP Dental.SIGMAS
            ((fun '(x, y, _) => (x, y, 2.0%float)) <$> pose)
            Dental.CATEGORIES Dental.SCORE_WEIGHTS)).
Proof. reflexivity. Qed.

Section WithNumpy.

Variable np_sum : list float -> float.
Variable float_of_int : Z -> float.

(** X10: a [DentalKp] cannot be instantiated from the class body alone:
    [__init__] raises [AssertionError] as long as [dental_keypoints],
    [dental_sigmas] or [dental_skeleton] is [None].  After
    [DentalKp.configure], on any namespace and whatever the class
    attributes and [POSE] were before, [__init__] returns (no training
    weights being set) the two heads [cif] and [caf] of the dataset
    [dental], both with the six dental keypoints, their sigmas and the
    skeleton, the pose with every [z] at 2.0, and the upsample stride of
    the namespace; only the [cif] head gets the score weights. *)
Theorem init_after_configure (a : Args) (w : World) (bs : Z) :
  snd (init np_sum float_of_int (class_body bs)) = inl (AssertionError "")
  /\ (forall c,
        dental_keypoints c = None \/ dental_sigmas c = None \/ dental_skeleton c = None ->
        snd (init np_sum float_of_int c) = inl (AssertionError ""))
  /\ snd (configure a w) = inr tt
  /\ (weights (cls w) = None ->
      let w' := fst (configure a w) in
      let pose := (fun '(x, y, _) => (x, y, 2.0%float)) <$> POSE w in
      POSE w' = pose
      /\ init np_sum float_of_int (cls w')
         = (cls w',
            inr [ Cif "cif" "dental" Dental.KEYPOINTS Dental.SIGMAS (Some pose)
                    Dental.SKELETON (Some Dental.SCORE_WEIGHTS) None
                    (dental_upsample a);
                  Caf "caf" "dental" Dental.KEYPOINTS Dental.SIGMAS (Some pose)
                    Dental.SKELETON None (dental_upsample a) ])).
Proof.
  split; [reflexivity|]. split; [|split].
  - intros c Hnone. unfold init. cbv [bind get assert_not_none ret raise].
    destruct (dental_keypoints c); [|reflexivity].
    destruct (dental_sigmas c); [|reflexivity].
    destruct (dental_skeleton c); [|reflexivity].
    destruct Hnone as [?|[?|?]]; congruence.
  - reflexivity.
  - intros Hw w' pose. subst w' pose. destruct w as [pose c]. simpl in Hw.
    unfold configure. cbv [bind get]. rewrite get_constants_run.
    cbv [modify fst snd cls POSE]. split; [reflexivity|].
    unfold init. cbv [bind get assert_not_none ret raise].
    cbn [dental_keypoints dental_sigmas dental_skeleton weights upsample_stride
         dental_pose dental_score_weights c_keypoints c_sigmas c_skeleton c_pose
         c_score_weights c_hflip c_categories].
    rewrite Hw. reflexivity.
Qed.

(** The per-edge weights of lines 76-79: one per edge when every index
    can be looked up in [weights], otherwise [IndexError]. *)
Lemma wp_edge_weights (ws : list float) (skeleton : list (Z * Z)) (c : ClassAttrs) :
  wp (comprehension
        (fun '(bone1, bone2) =>
           w1 <- lift (getitem ws (bone1 - 1)) ;;
           w2 <- lift (getitem ws (bone2 - 1)) ;;
           ret (max_ w1 w2))%py skeleton) c
     (fun c' raw =>
        c' = c /\ length raw = length skeleton
        /\ Forall (fun e => 1 - len ws <= e.1 <= len ws /\ 1 - len ws <= e.2 <= len ws)
                  skeleton)
     (fun c' e =>
        c' = c /\ e = IndexError
        /\ Exists (fun e => ~ (1 - len ws <= e.1 <= len ws
                               /\ 1 - len ws <= e.2 <= len ws)) skeleton).
Proof.
  revert c. induction skeleton as [|[b1 b2] skeleton IH]; intros c; simpl.
  - apply wp_ret. auto.
  - apply wp_bind, wp_bind, wp_lift.
    destruct (getitem ws (b1 - 1)) as [e|w1] eqn:E1.
    { split; [reflexivity|]. split; [eapply getitem_error, E1|].
      left. simpl. intros [H1 _].
      destruct (DentalMore.getitem_wraps ws (b1 - 1)) as (x & Hx & _); [lia|congruence]. }
    apply wp_bind, wp_lift.
    destruct (getitem ws (b2 - 1)) as [e|w2] eqn:E2.
    { split; [reflexivity|]. split; [eapply getitem_error, E2|].
      left. simpl. intros [_ H2].
      destruct (DentalMore.getitem_wraps ws (b2 - 1)) as (x & Hx & _); [lia|congruence]. }
    apply wp_ret, wp_bind.
    eapply wp_mono; [apply IH | |].
    + intros c' raw (-> & Hlen & Hall). apply wp_ret.
      split; [reflexivity|]. split; [simpl; now rewrite Hlen|].
      constructor; [|exact Hall]. simpl. split.
      * destruct (Z.le_gt_cases (1 - len ws) b1);
          [|rewrite (DentalMore.getitem_outside ws (b1 - 1)) in E1 by lia; discriminate].
        apply getitem_returns_lt in E1. lia.
      * destruct (Z.le_gt_cases (1 - len ws) b2);
          [|rewrite (DentalMore.getitem_outside ws (b2 - 1)) in E2 by lia; discriminate].
        apply getitem_returns_lt in E2. lia.
    + intros c' e (-> & -> & Hex). auto using Exists_cons_tl.
Qed.

(** X11: with training [weights] set, [__init__] gives the [cif] head
    the weights as they are and the [caf] head one weight per skeleton
    edge, provided both indices of every edge lie between
    [1 - len(weights)] and [len(weights)]; if some edge has an index
    outside that range, [__init__] raises [IndexError] and builds no
    head. *)
Theorem init_training_weights (c : ClassAttrs) (ws : list float)
    (keypoints : list string) (sigmas : list float) (skeleton : list (Z * Z)) :
  weights c = Some ws ->
  dental_keypoints c = Some keypoints ->
  dental_sigmas c = Some sigmas ->
  dental_skeleton c = Some skeleton ->
  let in_range e := 1 - len ws <= e.1 <= len ws /\ 1 - len ws <= e.2 <= len ws in
  (Forall in_range skeleton ->
   exists caf_weights,
     length caf_weights = length skeleton
     /\ init np_sum float_of_int c
        = (c, inr [ Cif "cif" "dental" keypoints sigmas (dental_pose c) skeleton
                      (dental_score_weights c) (Some ws) (upsample_stride c);
                    Caf "caf" "dental" keypoints sigmas (dental_pose c) skeleton
                      (Some caf_weights) (upsample_stride c) ]))
  /\ (Exists (fun e => ~ in_range e) skeleton ->
      init np_sum float_of_int c = (c, inl IndexError)).
Proof.
  intros Hw Hk Hs Hsk in_range.
  pose proof (wp_edge_weights ws skeleton c) as Hwp. unfold wp in Hwp.
  unfold init, caf_weights_of. cbv [bind get assert_not_none ret raise].
  rewrite Hk, Hs, Hsk, Hw.
  destruct (comprehension _ skeleton c) as [c' [e|raw]].
  - destruct Hwp as (-> & -> & Hex). split; [|reflexivity].
    intros Hall. exfalso. rewrite Exists_exists in Hex.
    destruct Hex as (x & Hx & Hnx). rewrite Forall_forall in Hall.
    exact (Hnx (Hall x Hx)).
  - destruct Hwp as (-> & Hlen & Hall). split.
    + intros _. eexists. split; [|reflexivity]. now rewrite length_fmap.
    + intros Hex. exfalso. rewrite Exists_exists in Hex.
      destruct Hex as (x & Hx & Hnx). rewrite Forall_forall in Hall.
      exact (Hnx (Hall x Hx)).
Qed.

End WithNumpy.

(** X12: [common_eval_preprocess] raises [AssertionError] exactly when
    rescaling is switched off ([eval_long_edge] is 0) while the extended
    evaluation scale is requested or the batch size is not 1.  In every
    other case it returns four entries: [NormalizeAnnotations], the
    rescaling entry, the padding ([CenterPadTight(16)] for a batch size
    of 1, [CenterPad(eval_long_edge)] otherwise) and the orientation
    entry; the class attributes are only read. *)
Theorem common_eval_preprocess_assertions (c : ClassAttrs) :
  fst (common_eval_preprocess c) = c
  /\ (eval_long_edge c = 0 /\ (eval_extended_scale c = true \/ batch_size c <> 1) ->
      snd (common_eval_preprocess c) = inl (AssertionError ""))
  /\ (eval_long_edge c <> 0 \/ (eval_extended_scale c = false /\ batch_size c = 1) ->
      exists rescale_t orientation_t,
        snd (common_eval_preprocess c)
        = inr [ ETransform NormalizeAnnotations; rescale_t;
                ETransform (if batch_size c =? 1 then CenterPadTight 16
                            else CenterPad (eval_long_edge c));
                orientation_t ]).
Proof.
  unfold common_eval_preprocess, truthy.
  cbv [bind get assert_ ret raise].
  destruct (eval_extended_scale c) eqn:Hext;
    destruct (Z.eqb_spec (eval_long_edge c) 0) as [HL|HL];
    destruct (Z.eqb_spec (batch_size c) 1) as [Hb|Hb]; cbn;
    (split; [reflexivity|]); (split; [intros [H0 H]|intros H]);
    try reflexivity; try (eexists _, _; reflexivity);
    try congruence;
    try (destruct H as [?|?]; congruence);
    try (destruct H as [?|[? ?]]; congruence).
Qed.

(** X13: with the extended evaluation scale and a non-zero
    [eval_long_edge], the rescaling entry offers two target edges: the
    long edge [L] itself and [(L - 1) // 2 + 1], which is [L / 2] rounded
    up ([L <= 2 * s <= L + 1]). *)
Theorem common_eval_preprocess_half_edge (c : ClassAttrs) :
  eval_extended_scale c = true ->
  eval_long_edge c <> 0 ->
  exists s padding_t orientation_t,
    snd (common_eval_preprocess c)
    = inr [ ETransform NormalizeAnnotations;
            EList [ DeterministicEqualChoice
                      [ Some (RescaleAbsolute (eval_long_edge c));
                        Some (RescaleAbsolute s) ] 1 ];
            padding_t; orientation_t ]
    /\ eval_long_edge c <= 2 * s <= eval_long_edge c + 1.
Proof.
  intros Hext HL. exists ((eval_long_edge c - 1) / 2 + 1).
  unfold common_eval_preprocess, truthy.
  cbv [bind get assert_ ret raise]. rewrite Hext.
  destruct (Z.eqb_spec (eval_long_edge c) 0) as [?|_]; [contradiction|]. cbn.
  destruct (batch_size c =? 1); cbn; eexists _, _; (split; [reflexivity|]);
    pose proof (Z.div_mod (eval_long_edge c - 1) 2 ltac:(lia));
    pose proof (Z.mod_pos_bound (eval_long_edge c - 1) 2 ltac:(lia)); lia.
Qed.

End DentalKpFacts.

(** * What [configure] leaves alone *)

Section ConfigureFrame.

Context (COCO_KEYPOINTS : list string)
        (COCO_PERSON_SKELETON DENSER_COCO_PERSON_CONNECTIONS : list (Z * Z))
        (FieldConfig_new : FieldConfig) (PyObject : Type).

(** X14: whether it returns or raises, [configure] changes nothing in
    the namespace except [keypoint_threshold] and [decoder_workers], and
    it never replaces a value given for one of them: each is only
    assigned when it was [None]. *)
Theorem configure_keeps_given_values (a : Args) (c : ClassAttrs) :
  let a' := args (fst (configure COCO_KEYPOINTS (mkWorld a c))) in
  a' = set_decoder_workers (decoder_workers a')
         (set_keypoint_threshold (keypoint_threshold a') a)
  /\ (forall k, keypoint_threshold a = Some k -> keypoint_threshold a' = Some k)
  /\ (forall n, decoder_workers a = Some n -> decoder_workers a' = Some n).
Proof.
  destruct a as [? seed ? [k|] ? f ? ? [dw|] [bs|] dbg ? ? ? ? ? ?];
    destruct f, dbg; try (destruct (1 <? bs) eqn:Hbs);
    run_configure;
    try change ((0 =? 0)%float) with true; cbv iota beta;
    repeat split_test; cbn; try rewrite Hbs; cbn;
    (split; [reflexivity|]); split; intros ? [=]; subst; reflexivity.
Qed.

(** The only exception [configure] raises is the bare [AssertionError]. *)
Lemma configure_raises_assertion (w : World) (e : Exn) :
  snd (configure COCO_KEYPOINTS w) = inl e -> e = AssertionError "".
Proof.
  destruct w as [a c].
  destruct a as [? seed ? [k|] ? f ? ? dw bs dbg ? ? ? ? ? ?];
    destruct f; run_configure;
    try change ((0 =? 0)%float) with true; cbv iota beta;
    repeat split_test; cbn;
    try (destruct (_ && _); cbn);
    now intros [= <-].
Qed.

(** X15: [configure] is not atomic.  When one of its consistency checks
    raises, the thresholds of [CifHr], [CifSeeds] and [CafScored] and the
    four debug visualizers have already been reassigned from the
    namespace, whereas the four [CifCaf] attributes and
    [decoder_workers] are as they were before the call. *)
Theorem configure_raises_half_configured (a : Args) (c : ClassAttrs) (e : Exn) :
  snd (configure COCO_KEYPOINTS (mkWorld a c)) = inl e ->
  let w' := fst (configure COCO_KEYPOINTS (mkWorld a c)) in
  e = AssertionError ""
  /\ CifHr_v_threshold (cls w') = cif_th a
  /\ CifSeeds_threshold (cls w') = seed_threshold a
  /\ CafScored_default_score_th (cls w') = caf_th a
  /\ CifSeeds_debug_visualizer (cls w') = Some Visualizer.Seeds
  /\ CifHr_debug_visualizer (cls w') = Some (Visualizer.CifHr COCO_KEYPOINTS)
  /\ Processor_debug_visualizer (cls w') = Some (Visualizer.Occupancy COCO_KEYPOINTS)
  /\ CifCaf_debug_visualizer (cls w') = Some (Visualizer.Occupancy COCO_KEYPOINTS)
  /\ CifCaf_force_complete (cls w') = CifCaf_force_complete c
  /\ CifCaf_keypoint_threshold (cls w') = CifCaf_keypoint_threshold c
  /\ CifCaf_greedy (cls w') = CifCaf_greedy c
  /\ CifCaf_connection_method (cls w') = CifCaf_connection_method c
  /\ decoder_workers (args w') = decoder_workers a.
Proof.
  destruct c.
  destruct a as [? seed ? [k|] ? f ? ? dw bs dbg ? ? ? ? ? ?];
    destruct f; run_configure;
    try change ((0 =? 0)%float) with true; cbv iota beta;
    repeat split_test; cbn;
    try (destruct (_ && _); cbn);
    intros [= <-]; repeat split.
Qed.

(** X16: with [caf_seeds] set, [factory_decode] raises the
    "not implemented" [AssertionError] on every model and whatever the
    other options are, before it looks at the head names; so
    [factory_from_args] never returns a [Processor] for a namespace with
    [--caf-seeds]. *)
Theorem caf_seeds_not_implemented (model : Model) (device : option string)
    (w : World) :
  caf_seeds (args w) = true ->
  (forall dense_coupling dense_connections multi_scale multi_scale_hflip kwargs,
     factory_decode COCO_KEYPOINTS COCO_PERSON_SKELETON
       DENSER_COCO_PERSON_CONNECTIONS FieldConfig_new PyObject model dense_coupling
       dense_connections true multi_scale multi_scale_hflip kwargs
     = inl (AssertionError "not implemented"))
  /\ snd (factory_from_args COCO_KEYPOINTS COCO_PERSON_SKELETON
            DENSER_COCO_PERSON_CONNECTIONS FieldConfig_new PyObject model device w)
     = inl (match snd (configure COCO_KEYPOINTS w) with
            | inr _ => AssertionError "not implemented"
            | inl _ => AssertionError ""
            end).
Proof.
  intros Hcs. split.
  - intros. now rewrite factory_decode_dispatch.
  - rewrite factory_from_args_run.
    pose proof (configure_returns COCO_KEYPOINTS w) as Hret.
    pose proof (configure_raises_assertion w) as Hraise.
    destruct (configure COCO_KEYPOINTS w) as [w1 [e|[]]]; simpl in *.
    + now rewrite (Hraise e eq_refl).
    + destruct (Hret eq_refl) as (_ & _ & _ & _ & _ & Hcs1 & _).
      now rewrite Hcs1, Hcs, factory_decode_dispatch.
Qed.

End ConfigureFrame.

(** * [DentalKp.configure] run more than once *)

Module DentalKpConfigureFacts.
Import DentalKp.

(** X17: [DentalKp.configure] overwrites every class attribute it sets
    from the namespace alone, so the last call wins: configuring with
    [a1] and then with [a2] leaves exactly the state that configuring
    with [a2] alone leaves, [POSE] included (its third column is set to
    2.0 again); in particular a second call with the same namespace
    changes nothing. *)
Theorem configure_last_call_wins (a1 a2 : Args) (w : World) :
  bind (configure a1) (fun _ => configure a2) w = configure a2 w.
Proof.
  destruct w as [pose c]. unfold bind at 1.
  unfold configure. cbv [bind get]. rewrite !DentalKpFacts.get_constants_run.
  cbv [modify fst snd cls POSE]. rewrite DentalKpFacts.get_constants_run.
  cbv [weights batch_size].
  rewrite <- list_fmap_compose.
  rewrite (list_fmap_ext
             ((fun '(x, y, _) => (x, y, 2.0%float))
              ∘ (fun '(x, y, _) => (x, y, 2.0%float)))
             (fun '(x, y, _) => (x, y, 2.0%float)) pose)
    by (now intros i [[x y] z] _).
  reflexivity.
Qed.

End DentalKpConfigureFacts.

(** * The statements above on sample inputs *)

(** X2 on the command-line defaults and the three-head model. *)
Lemma factory_from_args_processor_witness :
  exists p,
    snd (factory_from_args Sample.keypoints Sample.skeleton Sample.denser
           Sample.field_config unit Sample.model_cifcaf None
           (mkWorld Sample.args_default Sample.class_attrs)) = inr p.
Proof.
  refine (proj2 (factory_from_args_processor Sample.keypoints Sample.skeleton
                   Sample.denser Sample.field_config unit Sample.model_cifcaf None
                   (mkWorld Sample.args_default Sample.class_attrs))
            eq_refl eq_refl eq_refl _ _).
  - split; repeat constructor; vm_compute; congruence.
  - vm_compute. reflexivity.
Defined.

(** X3 on the three-head model without dense connections. *)
Lemma factory_decode_single_scale_config_witness :
  exists fc skeleton,
    SampleMore.decoder_single
    = CifCaf fc Sample.keypoints skeleton Sample.skeleton []
    /\ cif_indices fc = [0] /\ cif_strides fc = [8].
Proof.
  destruct (factory_decode_single_scale_config Sample.keypoints Sample.skeleton
              Sample.denser Sample.field_config unit Sample.model_cifcaf
              0.01%float false false true [] SampleMore.decoder_single)
    as (fc & skeleton & vs & vs' & Hd & Hci & _ & Hcs & _).
  - vm_compute. reflexivity.
  - exists fc, skeleton. auto.
Defined.

(** X4 on the dental keypoints with a 0 index: the last keypoint is
    named. *)
Lemma print_associations_output_witness :
  Dental.print_associations_of Dental.KEYPOINTS [ (0, 1); (1, 3) ] []
  = ([ String (Ascii.ascii_of_nat 10)
         "Associations of the tooth skeleton with 24 keypoints";
       "apex_right - cej_left"; "cej_left - aeac_left" ]%string,
     inr tt).
Proof.
  refine (eq_trans (DentalMore.print_associations_output Dental.KEYPOINTS
                      [ (0, 1); (1, 3) ] [] _) _).
  - repeat (constructor; [unfold len; simpl; lia|]); constructor.
  - vm_compute. reflexivity.
Defined.

(** X5 on the dental keypoints with the index 7. *)
Lemma print_associations_index_error_witness :
  Dental.print_associations_of Dental.KEYPOINTS [ (1, 3); (7, 1); (2, 4) ] []
  = ([ String (Ascii.ascii_of_nat 10)
         "Associations of the tooth skeleton with 24 keypoints";
       "cej_left - aeac_left" ]%string,
     inl IndexError).
Proof.
  refine (eq_trans (DentalMore.print_associations_index_error Dental.KEYPOINTS
                      [ (1, 3) ] [ (2, 4) ] (7, 1) [] _ _) _).
  - repeat (constructor; [unfold len; simpl; lia|]); constructor.
  - left. right. unfold len. simpl. lia.
  - vm_compute. reflexivity.
Defined.

(** X6 on [--debug-indices cif:5 caf:12]. *)
Lemma configure_indices_parsed_witness :
  VisualizerCli.BaseVisualizer_all_indices
    (VisualizerCli.cls
       (fst (VisualizerCli.configure SampleMore.int_of_digits
               (VisualizerCli.mkWorld SampleMore.visualizer_args
                  SampleMore.visualizer_class_attrs))))
  = [ ("cif"%string, 5); ("caf"%string, 12) ].
Proof.
  refine (proj1 (proj2 (VisualizerCliFacts.configure_indices_parsed
                          SampleMore.int_of_digits
                          [ ("cif"%string, "5"%string, 5);
                            ("caf"%string, "12"%string, 12) ]
                          SampleMore.visualizer_args
                          SampleMore.visualizer_class_attrs _ eq_refl))).
  repeat constructor; cbn; try reflexivity;
    intros H; repeat (destruct H as [H|H]; [discriminate H|]); exact H.
Defined.

(** X7 on [--debug-indices cif:5 caf]. *)
Lemma configure_index_without_colon_witness :
  snd (VisualizerCli.configure SampleMore.int_of_digits
         (VisualizerCli.mkWorld SampleMore.visualizer_args_no_colon
            SampleMore.visualizer_class_attrs))
  = inl VisualizerCli.ValueError.
Proof.
  refine (f_equal snd
            (VisualizerCliFacts.configure_index_without_colon
               SampleMore.int_of_digits [ "cif:5"; "caf" ]%string
               SampleMore.visualizer_args_no_colon
               SampleMore.visualizer_class_attrs eq_refl eq_refl _)).
  right. left. cbn.
  intros H; repeat (destruct H as [H|H]; [discriminate H|]); exact H.
Defined.

(** X8 on [--debug] alone. *)
Lemma configure_debug_overrides_witness :
  VisualizerCli.Seeds_show
    (VisualizerCli.cls
       (fst (VisualizerCli.configure SampleMore.int_of_digits
               (VisualizerCli.mkWorld SampleMore.visualizer_args_debug
                  SampleMore.visualizer_class_attrs)))) = true.
Proof.
  destruct (VisualizerCliFacts.configure_debug_overrides SampleMore.int_of_digits
              SampleMore.visualizer_args_debug SampleMore.visualizer_class_attrs
              eq_refl) as (_ & Hdebug & _).
  destruct (Hdebug eq_refl) as (_ & _ & _ & _ & _ & _ & _ & Hseeds).
  exact Hseeds.
Defined.

(** X9 on [--debug-indices cif:5 caf:12]: the second run raises. *)
Lemma configure_second_run_witness :
  snd (VisualizerCli.configure SampleMore.int_of_digits
         (fst (VisualizerCli.configure SampleMore.int_of_digits
                 (VisualizerCli.mkWorld SampleMore.visualizer_args
                    SampleMore.visualizer_class_attrs))))
  = inl (VisualizerCli.AttributeError "partition").
Proof.
  refine (eq_trans
            (f_equal snd
               (VisualizerCliFacts.configure_second_run SampleMore.int_of_digits
                  (VisualizerCli.mkWorld SampleMore.visualizer_args
                     SampleMore.visualizer_class_attrs) eq_refl)) _).
  vm_compute. reflexivity.
Defined.

(** X11 on six training weights and the dental skeleton. *)
Lemma init_training_weights_witness :
  exists caf_weights,
    length caf_weights = 4%nat
    /\ snd (DentalKp.init SampleMore.sum_left SampleMore.small_float
              SampleMore.dental_class_weighted)
       = inr [ DentalKp.Cif "cif" "dental" Dental.KEYPOINTS Dental.SIGMAS
                 (Some DentalKp.POSE_initial) Dental.SKELETON
                 (Some Dental.SCORE_WEIGHTS)
                 (Some [3.0%float; 3.0%float; 2.0%float; 2.0%float; 1.0%float;
                        1.0%float]) 1;
               DentalKp.Caf "caf" "dental" Dental.KEYPOINTS Dental.SIGMAS
                 (Some DentalKp.POSE_initial) Dental.SKELETON
                 (Some caf_weights) 1 ].
Proof.
  destruct (proj1 (DentalKpFacts.init_training_weights SampleMore.sum_left
                     SampleMore.small_float SampleMore.dental_class_weighted
                     _ _ _ _ eq_refl eq_refl eq_refl eq_refl))
    as (cw & Hlen & Hinit).
  - repeat (constructor; [unfold len; simpl; lia|]); constructor.
  - exists cw. split; [exact Hlen|]. rewrite Hinit. reflexivity.
Defined.

(** X13 on a long edge of 513: the second target edge is 257. *)
Lemma common_eval_preprocess_half_edge_witness :
  exists s padding_t orientation_t,
    snd (DentalKp.common_eval_preprocess SampleMore.dental_class_extended)
    = inr [ DentalKp.ETransform DentalKp.NormalizeAnnotations;
            DentalKp.EList
              [ DentalKp.DeterministicEqualChoice
                  [ Some (DentalKp.RescaleAbsolute 513);
                    Some (DentalKp.RescaleAbsolute s) ] 1 ];
            padding_t; orientation_t ]
    /\ 513 <= 2 * s <= 513 + 1.
Proof.
  refine (DentalKpFacts.common_eval_preprocess_half_edge
            SampleMore.dental_class_extended eq_refl _).
  discriminate.
Defined.

(** X15 on [--no-force-complete-pose --seed-threshold 0.0]. *)
Lemma configure_raises_half_configured_witness :
  CifSeeds_threshold
    (cls (fst (configure Sample.keypoints
                 (mkWorld Sample.args_low_seed Sample.class_attrs))))
  = 0.0%float
  /\ CifCaf_keypoint_threshold
       (cls (fst (configure Sample.keypoints
                    (mkWorld Sample.args_low_seed Sample.class_attrs))))
     = Some 0.0%float.
Proof.
  destruct (configure_raises_half_configured Sample.keypoints Sample.args_low_seed
              Sample.class_attrs (AssertionError ""))
    as (_ & _ & Hseed & _ & _ & _ & _ & _ & _ & Hkp & _).
  - vm_compute. reflexivity.
  - split; [exact Hseed | exact Hkp].
Defined.

(** X16 on the command-line defaults with [--caf-seeds]. *)
Lemma caf_seeds_not_implemented_witness :
  snd (factory_from_args Sample.keypoints Sample.skeleton Sample.denser
         Sample.field_config unit Sample.model_cifcaf None
         (mkWorld SampleMore.args_caf_seeds Sample.class_attrs))
  = inl (AssertionError "not implemented").
Proof.
  refine (eq_trans
            (proj2 (caf_seeds_not_implemented Sample.keypoints Sample.skeleton
                      Sample.denser Sample.field_config unit Sample.model_cifcaf None
                      (mkWorld SampleMore.args_caf_seeds Sample.class_attrs)
                      eq_refl)) _).
  vm_compute. reflexivity.
Defined.

(** C5 does not hold of the code: with [dense_connections] and
    [multi_scale] on, the branch of lines 141-143 and 153-155 is taken
    and [factory_decode] raises [IndexError] on the three-head model,
    with or without [multi_scale_hflip], so no assembler is built over
    the dense skeleton.  On a model that exposes thirty strides lines
    162-169 do store the confidence scales (1.0 per base edge, then
    [dense_coupling] per dense edge) in the field configuration, and the
    [IndexError] is raised right after, while the visualizers are built.
    In single-scale mode the same call returns the assembler over the
    base skeleton followed by the dense connections, with the base
    skeleton as [out_skeleton]. *)
Theorem dense_connections_multi_scale_index_error :
  factory_decode Sample.keypoints Sample.skeleton Sample.denser Sample.field_config
    unit Sample.model_cifcaf 0.01%float true false true false [] = inl IndexError
  /\ factory_decode Sample.keypoints Sample.skeleton Sample.denser Sample.field_config
       unit Sample.model_cifcaf 0.01%float true false true true [] = inl IndexError
  /\ (let run := decode_cifcaf Sample.keypoints Sample.skeleton Sample.denser unit
                   Sample.model_wide 0.01%float true true false []
                   Sample.field_config in
      snd run = inl IndexError
      /\ cif_indices (fst run) = [0; 2; 4; 6; 8]
      /\ confidence_scales (fst run) = Some [1.0%float; 1.0%float; 0.01%float]
      /\ cif_visualizers (fst run) = None)
  /\ (exists fc,
        factory_decode Sample.keypoints Sample.skeleton Sample.denser
          Sample.field_config unit Sample.model_cifcaf 0.01%float
          true false false true []
        = inr (CifCaf fc Sample.keypoints (Sample.skeleton ++ Sample.denser)
                 Sample.skeleton [])
        /\ confidence_scales fc = Some [1.0%float; 1.0%float; 0.01%float]).
Proof.
  split; [vm_compute; reflexivity|].
  split; [vm_compute; reflexivity|].
  split; [repeat split; vm_compute; reflexivity|].
  eexists. split; vm_compute; reflexivity.
Qed.
